(** * Automated spectroscopy sweep (Bentham TMc300 + SR7265 lock-in)

    Shallow embedding of [gpt_rascunho_ic.py]: the two instrument classes
    [BenthamMonochromator] and [SR7265LockIn], and the controller
    [Experimento] with its sweep [executar_varredura].

    Modelling choices.
    - Python numbers (ints and finite floats) are rationals [Q]; the
      arithmetic of the source ([lambda_nm - OVERSHOOT], [tau * 5],
      [x**2 + y**2]) is exact rational arithmetic.  Rounding, [nan] and
      infinities of IEEE doubles are outside the model; the one overflow
      kept is the [OverflowError] of the int true divisions of the
      simulated [ler_XY], which the sweep can reach with an int wavelength.
    - [math.sqrt], [math.atan2], [math.degrees] and [np.exp] are library
      functions; in the sweep they are taken as a parameter [pymath].  What
      the two lines that derive magnitude and phase compute is stated apart,
      over the reals, in [Derivacao].
    - Everything the program does to the outside world (driver calls, VISA
      traffic, [time.sleep], [print], random noise) is an [event]; a method
      returns the events it emitted.  The answers of the outside world are
      given by a [hardware] record of functions of the history of events so
      far, so an instrument may answer, or fail, differently at every call.
    - A method invocation is itself logged ([Call]), and so is the overload
      flag handed back by [verificar_status] ([Ret_verificar_status]): in
      the simulated configuration these leave no other observable trace.
    - The three [time.sleep] calls of the source are told apart by their
      call site ([sleep_site]).
    - The module-level flag [SIMULATE] is a parameter of every method. *)

From Stdlib Require Import ZArith QArith List String Bool Lia Lqa.
From Stdlib Require Reals Lra.
Import ListNotations.

Set Implicit Arguments.

(** ** Python values and exceptions *)

Inductive exn : Type :=
| RuntimeError (msg : string)
| AttributeError
| ValueError
| OverflowError
| DriverError (code : Z).

Inductive outcome (A : Type) : Type :=
| Ok (a : A)
| Raise (e : exn).
Arguments Ok {A} a.
Arguments Raise {A} e.

Definition is_ok {A} (r : outcome A) : bool :=
  match r with Ok _ => true | Raise _ => false end.

Definition Qltb (x y : Q) : bool := negb (Qle_bool y x).

(** [max(0, x)]: the first argument is kept unless the second is strictly
    greater. *)
Definition py_max0 (x : Q) : Q := if Qltb 0 x then x else 0%Q.

(** The least magnitude that no longer rounds to a finite double:
    [2**1024 - 2**970], half an ulp above the largest double. *)
Definition limite_double : Q := inject_Z (2 ^ 1024 - 2 ^ 970).

(** [a / b] on Python ints converts the exact quotient to a double and
    raises [OverflowError] when it is too large for one. *)
Definition estoura_double (q : Q) : bool :=
  Qle_bool limite_double q || Qle_bool q (- limite_double).
Arguments estoura_double : simpl never.

Definition py_truediv (a b : Q) : outcome Q :=
  if estoura_double (a / b) then Raise OverflowError else Ok (a / b).

(** [len(range(start, stop, step))] for a non-zero step. *)
Definition range_len (start stop step : Z) : Z :=
  if (0 <? step)%Z then
    if (start <? stop)%Z then ((stop - start - 1) / step + 1)%Z else 0%Z
  else
    if (stop <? start)%Z then ((start - stop - 1) / (- step) + 1)%Z else 0%Z.

(** [range(start, stop, step)]; a zero step raises [ValueError]. *)
Definition py_range (start stop step : Z) : outcome (list Z) :=
  if (step =? 0)%Z then Raise ValueError
  else Ok (map (fun i => (start + Z.of_nat i * step)%Z)
               (seq 0 (Z.to_nat (range_len start stop step)))).

(** ** Samples, events and the outside world *)

(** One row [[wl_real, x, y, r, fase]] of [Experimento.dados]. *)
Record amostra : Type := Amostra {
  am_wl : Q;
  am_x : Q;
  am_y : Q;
  am_r : Q;
  am_fase : Q
}.

(** The dictionary [{'overload': ...}] returned by [verificar_status]. *)
Record status : Type := Status { overload : bool }.

Inductive method : Type :=
| mono_inicializar
| mono_mover_para (lambda_nm : Q)
| mono_enviar_comando (wl : Q)
| mono_fechar
| lockin_conectar (endereco : string)
| lockin_configurar_experimento (tau : Q)
| lockin_ler_XY (wl : Q)
| lockin_verificar_status (wl : Q)
| lockin_auto_sensitivity
| lockin_fechar
| exp_executar_varredura (start end_ step : Z) (tau : Q)
| exp_salvar_e_plotar.

(** Commands written to, or queried from, the lock-in. *)
Inductive visa_cmd : Type :=
| CP_0 | FLOAT_1 | FET_1 | TC (tau : Q) | AS | ST | XY | IDN.

Inductive message : Type :=
| msg_sim_mono_inicializado
| msg_sim_lockin_conectado
| msg_hardware_encontrado (idn : string)
| msg_sim_parametros (tau : Q)
| msg_sim_auto_sensitivity
| msg_iniciando_aquisicao
| msg_saturacao (wl_real : Q)
| msg_leitura (wl_real r fase : Q)
| msg_aquisicao_finalizada.

(** The source line of a [time.sleep] call. *)
Inductive sleep_site : Type :=
| pausa_backlash      (* mover_para, after the overshoot command *)
| estabilizacao       (* sweep step 2 *)
| reestabilizacao.    (* sweep step 3, after auto_sensitivity *)

Inductive event : Type :=
| Call (m : method)
| Ret_verificar_status (st : status)
| Print (msg : message)
| Sleep (site : sleep_site) (d : Q)
| LoadLibrary (path : string)
| BI_initialise
| BI_build_system (cfg : string) (group : Z)
| BI_select_wavelength (wl : Q)
| BI_park
| BI_close_system
| ResourceManager
| OpenResource (endereco : string)
| SetReadTermination
| Write (cmd : visa_cmd)
| Query (cmd : visa_cmd)
| Close
| RandomNormal (loc scale : Q)
| ToCsv (file : string) (rows : list amostra)
| Plot (xs ys : list Q).

Definition history : Type := list event.

(** Answers of the driver library, of the VISA layer and of the random
    generator; each sees the history up to and including its request. *)
Record hardware : Type := Hardware {
  hw_LoadLibrary : history -> outcome unit;
  hw_BI_initialise : history -> outcome Z;
  hw_BI_build_system : history -> outcome Z;
  (* the value the driver stores through [byref(wl_real)] *)
  hw_BI_select_wavelength : history -> outcome Q;
  hw_BI_park : history -> outcome unit;
  hw_BI_close_system : history -> outcome unit;
  hw_ResourceManager : history -> outcome unit;
  hw_open_resource : history -> outcome unit;
  hw_write : history -> outcome unit;
  hw_query_IDN : history -> outcome string;
  (* [int(inst.query("ST"))]: transport and parse failures both raise *)
  hw_query_ST : history -> outcome Z;
  (* [x, y = map(float, inst.query("XY.").split(","))]: the answer parsed
     and unpacked at line 160; a transport failure, a field that is not a
     number and an answer without exactly two fields all raise there *)
  hw_query_XY : history -> outcome (Q * Q);
  hw_close : history -> outcome unit;
  hw_random_normal : history -> Q
}.

(** The driver's park and close calls never fail. *)
Definition desligamento_confiavel (hw : hardware) : Prop :=
  forall h : history, hw_BI_park hw h = Ok tt /\ hw_BI_close_system hw h = Ok tt.

Record pymath : Type := PyMath {
  np_exp : Q -> Q;
  math_sqrt : Q -> Q;
  math_atan2 : Q -> Q -> Q;
  math_degrees : Q -> Q
}.

(** ** A state, exception and event-log monad

    A computation over an object of type [S] reads the history so far and
    returns its outcome, the updated object and the events it emitted. *)

Definition M (S A : Type) : Type := S -> history -> outcome A * S * list event.

Definition ret {S A} (a : A) : M S A := fun s _ => (Ok a, s, []).

Definition bind {S A B} (m : M S A) (k : A -> M S B) : M S B :=
  fun s h =>
    match m s h with
    | (Ok a, s1, ev1) =>
        match k a s1 (h ++ ev1) with
        | (r, s2, ev2) => (r, s2, ev1 ++ ev2)
        end
    | (Raise e, s1, ev1) => (Raise e, s1, ev1)
    end.

Definition raise {S A} (e : exn) : M S A := fun s _ => (Raise e, s, []).

(** A pure operation that may raise. *)
Definition lift {S A} (r : outcome A) : M S A := fun s _ => (r, s, []).

Definition emit {S} (e : event) : M S unit := fun s _ => (Ok tt, s, [e]).

(** Issue the request [e] and take the answer of the outside world. *)
Definition ask {S A} (e : event) (answer : history -> outcome A) : M S A :=
  fun s h => (answer (h ++ [e]), s, [e]).

Definition gets {S A} (f : S -> A) : M S A := fun s _ => (Ok (f s), s, []).

Definition modify {S} (f : S -> S) : M S unit := fun s _ => (Ok tt, f s, []).

(** Attribute access on a field that may still be [None]. *)
Definition deref {S H} (field : S -> option H) : M S H :=
  fun s _ =>
    match field s with
    | Some x => (Ok x, s, [])
    | None => (Raise AttributeError, s, [])
    end.

(** Run a method of a sub-object held in a field. *)
Definition zoom {S T A} (get : S -> T) (set : S -> T -> S) (m : M T A) : M S A :=
  fun s h => match m (get s) h with (r, t, ev) => (r, set s t, ev) end.

(** [try: body finally: fin]: [fin] always runs; if it raises, its
    exception replaces the outcome of [body]. *)
Definition try_finally {S A} (body : M S A) (fin : M S unit) : M S A :=
  fun s h =>
    match body s h with
    | (r, s1, ev1) =>
        match fin s1 (h ++ ev1) with
        | (Ok _, s2, ev2) => (r, s2, ev1 ++ ev2)
        | (Raise e, s2, ev2) => (Raise e, s2, ev1 ++ ev2)
        end
    end.

Fixpoint for_each {S} (l : list Z) (body : Z -> M S unit) : M S unit :=
  match l with
  | [] => ret tt
  | x :: l' => bind (body x) (fun _ => for_each l' body)
  end.

Declare Scope py_scope.
Delimit Scope py_scope with py.
Notation "x <- m ;; k" := (bind m (fun x => k))
  (at level 61, m at next level, right associativity) : py_scope.
Notation "m ;; k" := (bind m (fun _ => k))
  (at level 61, right associativity) : py_scope.
Open Scope py_scope.

(** [time.sleep(d)] raises [ValueError] on a negative duration. *)
Definition time_sleep {S} (site : sleep_site) (d : Q) : M S unit :=
  if Qltb d 0 then raise ValueError else emit (Sleep site d).

Definition print {S} (msg : message) : M S unit := emit (Print msg).

Definition outcome_of {S A} (x : outcome A * S * list event) : outcome A := fst (fst x).
Definition state_of {S A} (x : outcome A * S * list event) : S := snd (fst x).
Definition events_of {S A} (x : outcome A * S * list event) : list event := snd x.

(** ** Hardware layer: the monochromator *)

Module BenthamMonochromator.

Inductive cdll : Type := CDLL (path : string).

Record self : Type := Self {
  current_lambda : option Q;
  lib : option cdll
}.

Definition __init__ : self := {| current_lambda := None; lib := None |}.

Definition set_current_lambda (wl : Q) (s : self) : self :=
  {| current_lambda := Some wl; lib := lib s |}.

Definition set_lib (l : cdll) (s : self) : self :=
  {| current_lambda := current_lambda s; lib := Some l |}.

Definition OVERSHOOT : Q := 2.

Section Methods.
Variable SIMULATE : bool.
Variable hw : hardware.

Definition dll_path : string := "C:/Bentham/SDK/benhw64.dll".

Definition inicializar : M self unit :=
  emit (Call mono_inicializar) ;;
  if SIMULATE then print msg_sim_mono_inicializado
  else
    ask (LoadLibrary dll_path) (hw_LoadLibrary hw) ;;
    modify (set_lib (CDLL dll_path)) ;;
    deref lib ;;
    rc <- ask BI_initialise (hw_BI_initialise hw) ;;
    if negb (rc =? 0)%Z then raise (RuntimeError "Erro grave de Hardware no TMc300.")
    else
      deref lib ;;
      rc' <- ask (BI_build_system "system.cfg" 0) (hw_BI_build_system hw) ;;
      if negb (rc' =? 0)%Z then raise (RuntimeError "Erro grave de Hardware no TMc300.")
      else ret tt.

Definition _enviar_comando (wl : Q) : M self Q :=
  emit (Call (mono_enviar_comando wl)) ;;
  deref lib ;;
  ask (BI_select_wavelength wl) (hw_BI_select_wavelength hw).

Definition mover_para (lambda_nm : Q) : M self Q :=
  emit (Call (mono_mover_para lambda_nm)) ;;
  if SIMULATE then
    modify (set_current_lambda lambda_nm) ;;
    ret lambda_nm
  else
    cur <- gets current_lambda ;;
    (match cur with
     | Some c =>
         if Qltb lambda_nm c then
           _enviar_comando (py_max0 (lambda_nm - OVERSHOOT)) ;;
           time_sleep pausa_backlash (1 # 10)
         else ret tt
     | None => ret tt
     end) ;;
    wl_real <- _enviar_comando lambda_nm ;;
    modify (set_current_lambda wl_real) ;;
    ret wl_real.

Definition fechar : M self unit :=
  emit (Call mono_fechar) ;;
  if negb SIMULATE then
    deref lib ;;
    ask BI_park (hw_BI_park hw) ;;
    deref lib ;;
    ask BI_close_system (hw_BI_close_system hw)
  else ret tt.

End Methods.
End BenthamMonochromator.

(** ** Hardware layer: the lock-in amplifier *)

Module SR7265LockIn.

Inductive resource : Type := Resource (endereco : string).

Record self : Type := Self {
  inst : option resource;
  tau : Q
}.

Definition __init__ : self := {| inst := None; tau := 3 # 10 |}.

Definition set_inst (r : resource) (s : self) : self :=
  {| inst := Some r; tau := tau s |}.

Definition set_tau (t : Q) (s : self) : self :=
  {| inst := inst s; tau := t |}.

Definition endereco_padrao : string := "GPIB0::12::INSTR".

Section Methods.
Variable SIMULATE : bool.
Variable hw : hardware.
Variable math : pymath.

Definition conectar (endereco : string) : M self unit :=
  emit (Call (lockin_conectar endereco)) ;;
  if SIMULATE then print msg_sim_lockin_conectado
  else
    ask ResourceManager (hw_ResourceManager hw) ;;
    ask (OpenResource endereco) (hw_open_resource hw) ;;
    modify (set_inst (Resource endereco)) ;;
    deref inst ;;
    emit SetReadTermination ;;
    deref inst ;;
    idn <- ask (Query IDN) (hw_query_IDN hw) ;;
    print (msg_hardware_encontrado idn).

Definition configurar_experimento (tau : Q) : M self unit :=
  emit (Call (lockin_configurar_experimento tau)) ;;
  modify (set_tau tau) ;;
  if SIMULATE then print (msg_sim_parametros tau)
  else
    deref inst ;; ask (Write CP_0) (hw_write hw) ;;
    deref inst ;; ask (Write FLOAT_1) (hw_write hw) ;;
    deref inst ;; ask (Write FET_1) (hw_write hw) ;;
    deref inst ;; ask (Write (TC tau)) (hw_write hw).

(** In the simulated branch [wl] is the int the sweep passes on from
    [range]: [(wl - 500)**2] and [(wl - 650)**2] are exact ints, and their
    true division by [200] and [100] raises [OverflowError] when the
    quotient does not fit a double. *)
Definition ler_XY (wl : Q) : M self (Q * Q) :=
  emit (Call (lockin_ler_XY wl)) ;;
  if SIMULATE then
    e1 <- lift (py_truediv (- ((wl - 500) ^ 2)) 200) ;;
    let pico1 := (1 # 1000) * np_exp math e1 in
    e2 <- lift (py_truediv (- ((wl - 650) ^ 2)) 100) ;;
    let pico2 := (25 # 10000) * np_exp math e2 in
    ruido <- ask (RandomNormal 0 (5 # 100000))
                 (fun h => Ok (hw_random_normal hw h)) ;;
    let x_val := pico1 + pico2 + ruido + (1 # 10000) in
    let y_val := ruido * (1 # 2) in
    ret (x_val, y_val)
  else
    deref inst ;;
    ask (Query XY) (hw_query_XY hw).

Definition verificar_status (wl : Q) : M self status :=
  emit (Call (lockin_verificar_status wl)) ;;
  st <- (if SIMULATE then
           let is_overload := Qltb 640 wl && Qltb wl 660 in
           ret {| overload := is_overload |}
         else
           deref inst ;;
           status <- ask (Query ST) (hw_query_ST hw) ;;
           ret {| overload := negb (Z.land status 16 =? 0)%Z |}) ;;
  emit (Ret_verificar_status st) ;;
  ret st.

Definition auto_sensitivity : M self unit :=
  emit (Call lockin_auto_sensitivity) ;;
  if SIMULATE then print msg_sim_auto_sensitivity
  else
    deref inst ;;
    ask (Write AS) (hw_write hw).

Definition fechar : M self unit :=
  emit (Call lockin_fechar) ;;
  if negb SIMULATE then
    deref inst ;;
    ask Close (hw_close hw)
  else ret tt.

End Methods.
End SR7265LockIn.

(** ** The experiment controller *)

Module Experimento.

Record self : Type := Self {
  mono : BenthamMonochromator.self;
  lockin : SR7265LockIn.self;
  dados : list amostra
}.

Definition __init__ : self :=
  {| mono := BenthamMonochromator.__init__;
     lockin := SR7265LockIn.__init__;
     dados := [] |}.

Definition set_mono (s : self) (m : BenthamMonochromator.self) : self :=
  {| mono := m; lockin := lockin s; dados := dados s |}.

Definition set_lockin (s : self) (l : SR7265LockIn.self) : self :=
  {| mono := mono s; lockin := l; dados := dados s |}.

Definition dados_append (a : amostra) (s : self) : self :=
  {| mono := mono s; lockin := lockin s; dados := dados s ++ [a] |}.

Definition in_mono {A} (m : M BenthamMonochromator.self A) : M self A :=
  zoom mono set_mono m.

Definition in_lockin {A} (m : M SR7265LockIn.self A) : M self A :=
  zoom lockin set_lockin m.

Section Methods.
Variable SIMULATE : bool.
Variable hw : hardware.
Variable math : pymath.

(** [tempo_espera if not SIMULATE else 0.05] *)
Definition duracao_espera (tempo_espera : Q) : Q :=
  if negb SIMULATE then tempo_espera else 5 # 100.

(** Step 3 of the loop body: the overload treatment, once the status is
    known. *)
Definition tratar_saturacao (tempo_espera wl_real : Q) (st : status) : M self unit :=
  if overload st then
    print (msg_saturacao wl_real) ;;
    in_lockin (SR7265LockIn.auto_sensitivity SIMULATE hw) ;;
    time_sleep reestabilizacao (duracao_espera tempo_espera)
  else ret tt.

(** Step 4 of the loop body. *)
Definition aquisicao (wl_real : Q) : M self unit :=
  xy <- in_lockin (SR7265LockIn.ler_XY SIMULATE hw math wl_real) ;;
  let x := fst xy in
  let y := snd xy in
  let r := math_sqrt math (x ^ 2 + y ^ 2) in
  let fase := math_degrees math (math_atan2 math y x) in
  print (msg_leitura wl_real r fase) ;;
  modify (dados_append (Amostra wl_real x y r fase)).

(** The body of [for wl in range(start, end + 1, step)]. *)
Definition passo (tempo_espera : Q) (wl : Z) : M self unit :=
  wl_real <- in_mono (BenthamMonochromator.mover_para SIMULATE hw (inject_Z wl)) ;;
  time_sleep estabilizacao (duracao_espera tempo_espera) ;;
  st <- in_lockin (SR7265LockIn.verificar_status SIMULATE hw wl_real) ;;
  tratar_saturacao tempo_espera wl_real st ;;
  aquisicao wl_real.

Definition laco (tempo_espera : Q) (start end_ step : Z) : M self unit :=
  match py_range start (end_ + 1) step with
  | Ok l => for_each l (passo tempo_espera)
  | Raise e => raise e
  end.

Definition finalizacao : M self unit :=
  in_mono (BenthamMonochromator.fechar SIMULATE hw) ;;
  in_lockin (SR7265LockIn.fechar SIMULATE hw) ;;
  print msg_aquisicao_finalizada.

(** The three calls made before the [try] block. *)
Definition inicializacao (tau : Q) : M self unit :=
  in_mono (BenthamMonochromator.inicializar SIMULATE hw) ;;
  in_lockin (SR7265LockIn.conectar SIMULATE hw SR7265LockIn.endereco_padrao) ;;
  in_lockin (SR7265LockIn.configurar_experimento SIMULATE hw tau).

(** Lines 137 to 143: the set-up calls and the banner, all before the
    [try] block. *)
Definition abertura (start end_ step : Z) (tau : Q) : M self unit :=
  emit (Call (exp_executar_varredura start end_ step tau)) ;;
  inicializacao tau ;;
  print msg_iniciando_aquisicao.

Definition executar_varredura (start end_ step : Z) (tau : Q) : M self unit :=
  abertura start end_ step tau ;;
  let tempo_espera := tau * 5 in
  try_finally (laco tempo_espera start end_ step) finalizacao.

Definition salvar_e_plotar : M self unit :=
  emit (Call exp_salvar_e_plotar) ;;
  df <- gets dados ;;
  emit (ToCsv "espectro.csv" df) ;;
  emit (Plot (map am_wl df) (map am_r df)).

End Methods.
End Experimento.

(** ** Magnitude and phase of a sample over the reals

    Lines 161 and 162, [r = math.sqrt(x**2 + y**2)] and
    [fase = math.degrees(math.atan2(y, x))], with the library functions
    read as the real functions they compute.  Rounding is left out; what is
    kept of IEEE doubles is the sign of a zero, which [math.atan2] tells
    apart. *)

Module Derivacao.
Import Reals.
Local Open Scope R_scope.

(** A finite Python float: its value and, for a zero, its sign
    ([zero_negativo] is read only when the value is zero). *)
Record pyfloat : Type := PyFloat {
  valor : R;
  zero_negativo : bool
}.

(** [copysign(1., f) == -1.] *)
Definition bit_de_sinal (f : pyfloat) : bool :=
  if Req_dec_T (valor f) 0 then zero_negativo f
  else if Rlt_dec (valor f) 0 then true else false.

(** [math.atan2(y, x)] on finite floats.  For [y == 0.] CPython returns
    [copysign(0., y)] when the sign bit of [x] is clear and
    [copysign(pi, y)] when it is set; the other cases are those of the C
    library. *)
Definition atan2 (y x : pyfloat) : R :=
  if Req_dec_T (valor y) 0 then
    if bit_de_sinal x then (if zero_negativo y then - PI else PI) else 0
  else if Req_dec_T (valor x) 0 then
    if Rlt_dec (valor y) 0 then - (PI / 2) else PI / 2
  else if Rlt_dec 0 (valor x) then atan (valor y / valor x)
  else if Rlt_dec (valor y) 0 then atan (valor y / valor x) - PI
  else atan (valor y / valor x) + PI.

(** [math.degrees(a)] is [a * (180 / pi)]. *)
Definition degrees (a : R) : R := a * (180 / PI).

Definition r (x y : pyfloat) : R := sqrt (valor x ^ 2 + valor y ^ 2).

Definition fase (x y : pyfloat) : R := degrees (atan2 y x).

End Derivacao.

(** ** Reading event logs *)

Definition count (p : event -> bool) (l : list event) : nat :=
  List.length (filter p l).

(** The events before, and after, the first one that satisfies [p]. *)
Fixpoint before_first (p : event -> bool) (l : list event) : list event :=
  match l with
  | [] => []
  | e :: l' => if p e then [] else e :: before_first p l'
  end.

Fixpoint after_first (p : event -> bool) (l : list event) : list event :=
  match l with
  | [] => []
  | e :: l' => if p e then l' else after_first p l'
  end.

Definition is_call_mono_fechar (e : event) : bool :=
  match e with Call mono_fechar => true | _ => false end.

Definition is_call_lockin_fechar (e : event) : bool :=
  match e with Call lockin_fechar => true | _ => false end.

Definition is_call_mover_para (e : event) : bool :=
  match e with Call (mono_mover_para _) => true | _ => false end.

Definition is_call_verificar_status (e : event) : bool :=
  match e with Call (lockin_verificar_status _) => true | _ => false end.

Definition is_call_ler_XY (e : event) : bool :=
  match e with Call (lockin_ler_XY _) => true | _ => false end.

Definition is_call_auto_sensitivity (e : event) : bool :=
  match e with Call lockin_auto_sensitivity => true | _ => false end.

(** A saturation query or a sample read. *)
Definition is_consulta (e : event) : bool :=
  is_call_verificar_status e || is_call_ler_XY e.

Definition is_ret_status (e : event) : bool :=
  match e with Ret_verificar_status _ => true | _ => false end.

Definition is_sleep_at (site : sleep_site) (e : event) : bool :=
  match e, site with
  | Sleep pausa_backlash _, pausa_backlash => true
  | Sleep estabilizacao _, estabilizacao => true
  | Sleep reestabilizacao _, reestabilizacao => true
  | _, _ => false
  end.

Definition is_select_wavelength (e : event) : bool :=
  match e with BI_select_wavelength _ => true | _ => false end.

(** The overload flag of the first status handed back in a log, if any. *)
Fixpoint status_reported (l : list event) : option bool :=
  match l with
  | [] => None
  | Ret_verificar_status st :: _ => Some (overload st)
  | _ :: l' => status_reported l'
  end.

(** ** Test benches

    Concrete instruments and a coarse rational stand-in for the math
    library, used to run the model on examples. *)

Module Bancada.

Definition last_event (h : history) : option event := last (map Some h) None.

(** Every call succeeds; the drive reaches exactly the requested
    wavelength, the lock-in reports no overload and reads (3, 4). *)
Definition ideal : hardware :=
  {| hw_LoadLibrary := fun _ => Ok tt;
     hw_BI_initialise := fun _ => Ok 0%Z;
     hw_BI_build_system := fun _ => Ok 0%Z;
     hw_BI_select_wavelength := fun h =>
       match last_event h with
       | Some (BI_select_wavelength wl) => Ok wl
       | _ => Ok 0
       end;
     hw_BI_park := fun _ => Ok tt;
     hw_BI_close_system := fun _ => Ok tt;
     hw_ResourceManager := fun _ => Ok tt;
     hw_open_resource := fun _ => Ok tt;
     hw_write := fun _ => Ok tt;
     hw_query_IDN := fun _ => Ok "SR7265"%string;
     hw_query_ST := fun _ => Ok 0%Z;
     hw_query_XY := fun _ => Ok (3, 4);
     hw_close := fun _ => Ok tt;
     hw_random_normal := fun _ => 0 |}.

(** As [ideal], but the status byte always has bit 4 set. *)
Definition saturada : hardware :=
  {| hw_LoadLibrary := hw_LoadLibrary ideal;
     hw_BI_initialise := hw_BI_initialise ideal;
     hw_BI_build_system := hw_BI_build_system ideal;
     hw_BI_select_wavelength := hw_BI_select_wavelength ideal;
     hw_BI_park := hw_BI_park ideal;
     hw_BI_close_system := hw_BI_close_system ideal;
     hw_ResourceManager := hw_ResourceManager ideal;
     hw_open_resource := hw_open_resource ideal;
     hw_write := hw_write ideal;
     hw_query_IDN := hw_query_IDN ideal;
     hw_query_ST := fun _ => Ok 16%Z;
     hw_query_XY := hw_query_XY ideal;
     hw_close := hw_close ideal;
     hw_random_normal := hw_random_normal ideal |}.

(** As [ideal], but the GPIB resource cannot be opened. *)
Definition sem_lockin : hardware :=
  {| hw_LoadLibrary := hw_LoadLibrary ideal;
     hw_BI_initialise := hw_BI_initialise ideal;
     hw_BI_build_system := hw_BI_build_system ideal;
     hw_BI_select_wavelength := hw_BI_select_wavelength ideal;
     hw_BI_park := hw_BI_park ideal;
     hw_BI_close_system := hw_BI_close_system ideal;
     hw_ResourceManager := hw_ResourceManager ideal;
     hw_open_resource := fun _ => Raise (DriverError (-1073807343));
     hw_write := hw_write ideal;
     hw_query_IDN := hw_query_IDN ideal;
     hw_query_ST := hw_query_ST ideal;
     hw_query_XY := hw_query_XY ideal;
     hw_close := hw_close ideal;
     hw_random_normal := hw_random_normal ideal |}.

(** As [ideal], but the third [XY.] query of a session times out. *)
Definition leitura_falha : hardware :=
  {| hw_LoadLibrary := hw_LoadLibrary ideal;
     hw_BI_initialise := hw_BI_initialise ideal;
     hw_BI_build_system := hw_BI_build_system ideal;
     hw_BI_select_wavelength := hw_BI_select_wavelength ideal;
     hw_BI_park := hw_BI_park ideal;
     hw_BI_close_system := hw_BI_close_system ideal;
     hw_ResourceManager := hw_ResourceManager ideal;
     hw_open_resource := hw_open_resource ideal;
     hw_write := hw_write ideal;
     hw_query_IDN := hw_query_IDN ideal;
     hw_query_ST := hw_query_ST ideal;
     hw_query_XY := fun h =>
       if (count (fun e => match e with Query XY => true | _ => false end) h =? 3)%nat
       then Raise (DriverError (-1073807339))
       else Ok (3, 4);
     hw_close := hw_close ideal;
     hw_random_normal := hw_random_normal ideal |}.

(** As [ideal], but the drive settles 0.1 nm above every request. *)
Definition deslocada : hardware :=
  {| hw_LoadLibrary := hw_LoadLibrary ideal;
     hw_BI_initialise := hw_BI_initialise ideal;
     hw_BI_build_system := hw_BI_build_system ideal;
     hw_BI_select_wavelength := fun h =>
       match last_event h with
       | Some (BI_select_wavelength wl) => Ok (Qred (wl + (1 # 10)))
       | _ => Ok 0
       end;
     hw_BI_park := hw_BI_park ideal;
     hw_BI_close_system := hw_BI_close_system ideal;
     hw_ResourceManager := hw_ResourceManager ideal;
     hw_open_resource := hw_open_resource ideal;
     hw_write := hw_write ideal;
     hw_query_IDN := hw_query_IDN ideal;
     hw_query_ST := hw_query_ST ideal;
     hw_query_XY := hw_query_XY ideal;
     hw_close := hw_close ideal;
     hw_random_normal := hw_random_normal ideal |}.

(** Rational stand-ins: [exp q] as [1 / (1 - q)] for [q <= 0], the square
    root to six decimals, and a flat phase. *)
Definition math_aprox : pymath :=
  {| np_exp := fun q => 1 / (1 - q);
     math_sqrt := fun q =>
       (Z.sqrt (Qnum q * 10 ^ 12 / Z.pos (Qden q)) # 10 ^ 6);
     math_atan2 := fun y x => y / (x * x + y * y + 1);
     math_degrees := fun q => q * (180 * 113 # 355) |}.

(** As [ideal], but [BI_initialise] reports error code 1. *)
Definition sem_tmc300 : hardware :=
  {| hw_LoadLibrary := hw_LoadLibrary ideal;
     hw_BI_initialise := fun _ => Ok 1%Z;
     hw_BI_build_system := hw_BI_build_system ideal;
     hw_BI_select_wavelength := hw_BI_select_wavelength ideal;
     hw_BI_park := hw_BI_park ideal;
     hw_BI_close_system := hw_BI_close_system ideal;
     hw_ResourceManager := hw_ResourceManager ideal;
     hw_open_resource := hw_open_resource ideal;
     hw_write := hw_write ideal;
     hw_query_IDN := hw_query_IDN ideal;
     hw_query_ST := hw_query_ST ideal;
     hw_query_XY := hw_query_XY ideal;
     hw_close := hw_close ideal;
     hw_random_normal := hw_random_normal ideal |}.

End Bancada.

(** ** Further readings of a log *)

(** The wavelengths commanded to the drive, in order. *)
Fixpoint comandos (l : list event) : list Q :=
  match l with
  | [] => []
  | BI_select_wavelength wl :: l' => wl :: comandos l'
  | _ :: l' => comandos l'
  end.

(** The targets of the [mover_para] invocations, in order. *)
Fixpoint movimentos (l : list event) : list Q :=
  match l with
  | [] => []
  | Call (mono_mover_para wl) :: l' => wl :: movimentos l'
  | _ :: l' => movimentos l'
  end.

Definition is_call_enviar_comando (e : event) : bool :=
  match e with Call (mono_enviar_comando _) => true | _ => false end.

(** The commands written to the lock-in, in order. *)
Fixpoint escritas (l : list event) : list visa_cmd :=
  match l with
  | [] => []
  | Write cmd :: l' => cmd :: escritas l'
  | _ :: l' => escritas l'
  end.

(** The datasets handed to the CSV writer, in order. *)
Fixpoint csv_gravados (l : list event) : list (list amostra) :=
  match l with
  | [] => []
  | ToCsv _ rows :: l' => rows :: csv_gravados l'
  | _ :: l' => csv_gravados l'
  end.

(** The drive reaches exactly the wavelength it is sent to. *)
Definition acionamento_exato (hw : hardware) : Prop :=
  forall (h : history) (wl : Q),
    hw_BI_select_wavelength hw (h ++ [BI_select_wavelength wl]) = Ok wl.

(** The monochromator is unset, or at or below the wavelength [wl]. *)
Definition nao_acima (s : Experimento.self) (wl : Z) : Prop :=
  BenthamMonochromator.current_lambda (Experimento.mono s) = None \/
  exists c, BenthamMonochromator.current_lambda (Experimento.mono s) = Some c /\
            (c <= inject_Z wl)%Q.

(** The wavelengths of a range at which the simulated lock-in saturates. *)
Definition na_janela_de_saturacao (wl : Z) : bool :=
  (640 <? wl)%Z && (wl <? 660)%Z.

(** A status report that flags overload. *)
Definition is_ret_overload (e : event) : bool :=
  match e with Ret_verificar_status st => overload st | _ => false end.

Definition is_write_AS (e : event) : bool :=
  match e with Write AS => true | _ => false end.

(** Every wait of a log made at [site] lasts [d] and is immediately
    followed by an event that satisfies [seguinte]. *)
Fixpoint cada_espera (site : sleep_site) (d : Q) (seguinte : event -> bool)
    (l : list event) : Prop :=
  match l with
  | [] => True
  | e :: l' =>
      (if is_sleep_at site e
       then e = Sleep site d /\
            match l' with e' :: _ => seguinte e' = true | [] => False end
       else True) /\
      cada_espera site d seguinte l'
  end.

(** No saturation query and no sample read is invoked between a
    [mover_para] invocation and the settling wait that follows it;
    [esperou] tells whether that wait has been made since the last move. *)
Fixpoint consultas_apos_espera (esperou : bool) (l : list event) : bool :=
  match l with
  | [] => true
  | Call (mono_mover_para _) :: l' => consultas_apos_espera false l'
  | Sleep estabilizacao _ :: l' => consultas_apos_espera true l'
  | e :: l' =>
      (negb (is_consulta e) || esperou) && consultas_apos_espera esperou l'
  end.

(** The simulated read at the int wavelength [wl] raises [OverflowError]:
    one of its two true divisions does not fit a double. *)
Definition leitura_simulada_estoura (wl : Z) : bool :=
  estoura_double (- ((inject_Z wl - 500) ^ 2) / 200) ||
  estoura_double (- ((inject_Z wl - 650) ^ 2) / 100).

(** For each [auto_sensitivity] invocation of a log, in order, the target
    of the last [mover_para] invoked before it ([atual] when there is
    none): the sweep step in which the scale was adjusted. *)
Fixpoint ajustes_em (atual : option Q) (l : list event) : list (option Q) :=
  match l with
  | [] => []
  | Call (mono_mover_para wl) :: l' => ajustes_em (Some wl) l'
  | Call lockin_auto_sensitivity :: l' => atual :: ajustes_em atual l'
  | _ :: l' => ajustes_em atual l'
  end.

(** ** Basic facts *)

Close Scope Q_scope.

Lemma Qltb_lt (x y : Q) : Qltb x y = true <-> (x < y)%Q.
Proof.
  unfold Qltb. rewrite negb_true_iff. split; intro H.
  - apply Qnot_le_lt. intro Hle. apply Qle_bool_iff in Hle. congruence.
  - destruct (Qle_bool y x) eqn:E; [|reflexivity].
    apply Qle_bool_iff in E. exfalso. exact (Qlt_not_le _ _ H E).
Qed.

Lemma Qltb_ge (x y : Q) : Qltb x y = false <-> (y <= x)%Q.
Proof.
  unfold Qltb. rewrite negb_false_iff. apply Qle_bool_iff.
Qed.

(** Split on every answer of the outside world, and on every test, that
    the goal still branches on. *)
Ltac case_answers :=
  repeat (cbn;
          match goal with
          | |- context [match ?x with _ => _ end] =>
              lazymatch x with
              | context [match _ with _ => _ end] => fail
              | _ => destruct x
              end
          end).

(** Bring a history built by successive appends to the form [h ++ l]. *)
Ltac norm_hist :=
  repeat (rewrite <- app_assoc || rewrite app_nil_r); cbn [app].

(** ** The monochromator *)

Section MonoFacts.
Import BenthamMonochromator.
Variable hw : hardware.

(** C10.  In the simulated configuration [mover_para] sends no command to
    the drive and makes no pause, whatever the last position was: its log
    holds the invocation alone, it returns the requested wavelength and
    stores exactly that value as [current_lambda]. *)
Theorem mover_para_simulado :
  forall (lambda_nm : Q) (s : self) (h : history),
    mover_para true hw lambda_nm s h
    = (Ok lambda_nm,
       {| current_lambda := Some lambda_nm; lib := lib s |},
       [Call (mono_mover_para lambda_nm)]).
Proof. reflexivity. Qed.

(** C3 (amended).  On real hardware with the driver loaded: a move to a
    target strictly below the last achieved wavelength first sends the
    drive to [max(0, target - 2)]; if the drive fails on that command the
    move raises there, and if the command returns the move pauses 0.1 s
    and then sends the drive to the target.  A first move, or a move to a
    target not below the last achieved wavelength, sends the target
    command alone.  In both cases the move ends with the target command:
    it returns, and stores, the wavelength the drive reports, or raises
    what the drive raises and leaves the object as it was.  In the
    simulated configuration the log of a move holds its invocation alone:
    no overshoot command, no target command and no pause. *)
Theorem mover_para_backlash :
  forall (lambda_nm : Q) (s : self) (h : history),
    let extra := py_max0 (lambda_nm - 2) in
    let ida := [Call (mono_mover_para lambda_nm);
                Call (mono_enviar_comando extra);
                BI_select_wavelength extra] in
    let pausa := Sleep pausa_backlash (1 # 10) in
    let alvo := [Call (mono_enviar_comando lambda_nm);
                 BI_select_wavelength lambda_nm] in
    let run := mover_para false hw lambda_nm s h in
    (* the move ends with the target command, sent after the events [antes] *)
    let chegada (antes : list event) :=
      match hw_BI_select_wavelength hw (h ++ antes ++ alvo) with
      | Ok wl_real =>
          run = (Ok wl_real, set_current_lambda wl_real s, antes ++ alvo)
      | Raise e => run = (Raise e, s, antes ++ alvo)
      end in
    (forall l : cdll, lib s = Some l ->
       (forall c, current_lambda s = Some c -> (lambda_nm < c)%Q ->
          match hw_BI_select_wavelength hw (h ++ ida) with
          | Ok _ => chegada (ida ++ [pausa])
          | Raise e => run = (Raise e, s, ida)
          end) /\
       (current_lambda s = None \/
        (exists c, current_lambda s = Some c /\ (c <= lambda_nm)%Q) ->
          chegada [Call (mono_mover_para lambda_nm)])) /\
    events_of (mover_para true hw lambda_nm s h)
    = [Call (mono_mover_para lambda_nm)].
Proof.
  intros lambda_nm [cl lb] h. cbv zeta. split; [| reflexivity].
  intros l Hlib. cbn in Hlib. subst lb.
  unfold mover_para, _enviar_comando, OVERSHOOT, time_sleep, bind, emit, gets,
    modify, deref, ask, ret, set_current_lambda.
  split.
  - intros c Hc Hlt. apply Qltb_lt in Hlt. cbn in Hc. subst cl.
    cbn -[Qltb py_max0]. rewrite Hlt. cbn -[py_max0]. norm_hist.
    destruct (hw_BI_select_wavelength hw _) as [w1 | e1]; cbn -[py_max0];
      [| reflexivity].
    norm_hist.
    destruct (hw_BI_select_wavelength hw _) as [w2 | e2]; reflexivity.
  - intros [Hnone | [c [Hc Hle]]]; cbn in Hnone || cbn in Hc; subst cl.
    + cbn. norm_hist.
      destruct (hw_BI_select_wavelength hw _) as [w2 | e2]; reflexivity.
    + apply Qltb_ge in Hle. cbn -[Qltb]. rewrite Hle. cbn. norm_hist.
      destruct (hw_BI_select_wavelength hw _) as [w2 | e2]; reflexivity.
Qed.

End MonoFacts.

(** ** Shutdown of both instruments *)

(** C7 (amended).  In the simulated configuration both [fechar] methods do
    nothing in any state: they return without raising, leave the object
    unchanged, and may be repeated.  On real hardware each dereferences
    its session handle without a guard, so it raises [AttributeError] when
    the handle was never set. *)
Theorem fechar_simulado_ou_sem_sessao :
  forall (hw : hardware) (h : history),
    (forall s : BenthamMonochromator.self,
        BenthamMonochromator.fechar true hw s h = (Ok tt, s, [Call mono_fechar]) /\
        (BenthamMonochromator.fechar true hw ;; BenthamMonochromator.fechar true hw) s h
        = (Ok tt, s, [Call mono_fechar; Call mono_fechar])) /\
    (forall s : SR7265LockIn.self,
        SR7265LockIn.fechar true hw s h = (Ok tt, s, [Call lockin_fechar]) /\
        (SR7265LockIn.fechar true hw ;; SR7265LockIn.fechar true hw) s h
        = (Ok tt, s, [Call lockin_fechar; Call lockin_fechar])) /\
    (forall cl : option Q,
        outcome_of (BenthamMonochromator.fechar false hw
                      {| BenthamMonochromator.current_lambda := cl;
                         BenthamMonochromator.lib := None |} h)
        = Raise AttributeError) /\
    (forall t : Q,
        outcome_of (SR7265LockIn.fechar false hw
                      {| SR7265LockIn.inst := None; SR7265LockIn.tau := t |} h)
        = Raise AttributeError).
Proof.
  intros hw h. repeat split.
Qed.

(** C7, counterexample.  On real hardware, shutting down a monochromator
    and a lock-in that were never initialised raises. *)
Lemma fechar_sem_sessao_levanta :
  is_ok (outcome_of (BenthamMonochromator.fechar false Bancada.ideal
                       BenthamMonochromator.__init__ [])) = false /\
  is_ok (outcome_of (SR7265LockIn.fechar false Bancada.ideal
                       SR7265LockIn.__init__ [])) = false.
Proof. split; reflexivity. Qed.

(** C3, counterexample.  In the simulated configuration a move from 500
    down to 480 sends no command to 478, nor any other. *)
Lemma mover_para_simulado_sem_ida_extra :
  let run := (BenthamMonochromator.mover_para true Bancada.ideal 500 ;;
              BenthamMonochromator.mover_para true Bancada.ideal 480)
               BenthamMonochromator.__init__ [] in
  events_of run = [Call (mono_mover_para 500); Call (mono_mover_para 480)] /\
  count is_select_wavelength (events_of run) = 0%nat.
Proof. split; reflexivity. Qed.

(** Witness for C3: on an ideal bench with the drive at 500, a move to 480
    goes through 478, pauses and reaches 480; with the drive at 480, a
    move to 500 is direct. *)
Lemma mover_para_backlash_witness :
  BenthamMonochromator.mover_para false Bancada.ideal 480
    {| BenthamMonochromator.current_lambda := Some 500%Q;
       BenthamMonochromator.lib := Some (BenthamMonochromator.CDLL "benhw64.dll") |} []
  = (Ok 480%Q,
     {| BenthamMonochromator.current_lambda := Some 480%Q;
        BenthamMonochromator.lib := Some (BenthamMonochromator.CDLL "benhw64.dll") |},
     [Call (mono_mover_para 480);
      Call (mono_enviar_comando 478); BI_select_wavelength 478;
      Sleep pausa_backlash (1 # 10);
      Call (mono_enviar_comando 480); BI_select_wavelength 480]) /\
  BenthamMonochromator.mover_para false Bancada.ideal 500
    {| BenthamMonochromator.current_lambda := Some 480%Q;
       BenthamMonochromator.lib := Some (BenthamMonochromator.CDLL "benhw64.dll") |} []
  = (Ok 500%Q,
     {| BenthamMonochromator.current_lambda := Some 500%Q;
        BenthamMonochromator.lib := Some (BenthamMonochromator.CDLL "benhw64.dll") |},
     [Call (mono_mover_para 500);
      Call (mono_enviar_comando 500); BI_select_wavelength 500]).
Proof.
  split.
  - destruct (mover_para_backlash Bancada.ideal 480
                {| BenthamMonochromator.current_lambda := Some 500%Q;
                   BenthamMonochromator.lib := Some (BenthamMonochromator.CDLL "benhw64.dll") |}
                []) as [Hreal _].
    destruct (Hreal _ eq_refl) as [Hdesce _].
    exact (Hdesce 500%Q eq_refl ltac:(reflexivity)).
  - destruct (mover_para_backlash Bancada.ideal 500
                {| BenthamMonochromator.current_lambda := Some 480%Q;
                   BenthamMonochromator.lib := Some (BenthamMonochromator.CDLL "benhw64.dll") |}
                []) as [Hreal _].
    destruct (Hreal _ eq_refl) as [_ Hsobe].
    apply Hsobe. right. exists 480%Q. split; [reflexivity | discriminate].
Defined.

(** ** One step of the sweep *)

Ltac run_model :=
  unfold Experimento.abertura, Experimento.passo, Experimento.aquisicao,
    Experimento.tratar_saturacao,
    Experimento.finalizacao, Experimento.inicializacao,
    Experimento.in_mono, Experimento.in_lockin, Experimento.duracao_espera, zoom,
    BenthamMonochromator.mover_para, BenthamMonochromator._enviar_comando,
    BenthamMonochromator.inicializar, BenthamMonochromator.fechar,
    SR7265LockIn.conectar, SR7265LockIn.configurar_experimento,
    SR7265LockIn.verificar_status, SR7265LockIn.auto_sensitivity,
    SR7265LockIn.ler_XY, SR7265LockIn.fechar,
    time_sleep, print, bind, ret, raise, emit, ask, gets, modify, deref,
    events_of, outcome_of, state_of.

(** As [case_answers], with every history kept in the form [h ++ l] and
    every answer recorded, so that a later request made at the same
    history gets the same answer. *)
Ltac case_answers_hist :=
  repeat (cbn -[Qltb]; norm_hist;
          repeat match goal with E : _ = _ |- _ => rewrite E end;
          match goal with
          | |- context [match ?x with _ => _ end] =>
              lazymatch x with
              | context [match _ with _ => _ end] => fail
              | _ => destruct x eqn:?
              end
          end).

Ltac fecha_passo :=
  repeat (split; [solve [reflexivity | lia | discriminate] |]);
  first [ reflexivity | lia | discriminate
        | do 2 eexists; reflexivity
        | eexists; reflexivity ].

Lemma Qltb_inject_Z (a b : Z) : Qltb (inject_Z a) (inject_Z b) = (a <? b)%Z.
Proof.
  unfold Qltb, Qle_bool. cbn. rewrite !Z.mul_1_r. symmetry. apply Z.ltb_antisym.
Qed.

Lemma janela_simulada (wl : Z) :
  Qltb 640 (inject_Z wl) && Qltb (inject_Z wl) 660 = na_janela_de_saturacao wl.
Proof.
  change 640%Q with (inject_Z 640). change 660%Q with (inject_Z 660).
  now rewrite !Qltb_inject_Z.
Qed.

Lemma count_app (p : event -> bool) (a b : list event) :
  count p (a ++ b) = (count p a + count p b)%nat.
Proof. unfold count. rewrite filter_app. apply length_app. Qed.

Section PassoFacts.
Variable SIMULATE : bool.
Variable hw : hardware.
Variable math : pymath.

(** The start of a step: the move issues no saturation query and no sample
    read; once the move has returned, the next thing the step does is the
    settling wait, followed at once by the first saturation query.  The
    wait lasts the [tempo_espera] the step was given on real hardware and
    a fixed 0.05 s in the simulated configuration.  (A negative duration
    makes [time.sleep] raise, and the step ends without any query.) *)
Lemma passo_espera_apos_mover :
  forall (tempo_espera : Q) (wl : Z) (s : Experimento.self) (h : history),
    let d := if SIMULATE then (5 # 100)%Q else tempo_espera in
    let mv := Experimento.in_mono
                (BenthamMonochromator.mover_para SIMULATE hw (inject_Z wl)) s h in
    let ev := events_of (Experimento.passo SIMULATE hw math tempo_espera wl s h) in
    count is_consulta (events_of mv) = 0%nat /\
    match outcome_of mv with
    | Raise _ => ev = events_of mv
    | Ok wl_real =>
        if Qltb d 0 then ev = events_of mv
        else exists rest,
            ev = events_of mv ++
                 Sleep estabilizacao d :: Call (lockin_verificar_status wl_real) :: rest
    end.
Proof.
  intros te wl [[cl lb] [ins ta] dd] h. cbv zeta.
  destruct SIMULATE; run_model; case_answers; cbn;
    (split; [reflexivity | first [reflexivity | eexists; reflexivity]]).
Qed.

(** The overload treatment of a step, read off its log.  The status is
    queried at most once, and in the simulated configuration it is always
    reported.  After a report without overload the read is invoked at
    once, and the step has no [auto_sensitivity] call and no further wait.
    After an overload report the step prints the warning and invokes
    [auto_sensitivity], once; when that returns (always in the simulated
    configuration, on real hardware when the instrument accepts the [AS]
    command) it waits the settling interval again and then invokes the
    read; when the [AS] command fails the step raises there. *)
Lemma passo_saturacao :
  forall (tempo_espera : Q) (wl : Z) (s : Experimento.self) (h : history),
    let run := Experimento.passo SIMULATE hw math tempo_espera wl s h in
    let ev := events_of run in
    let d := if SIMULATE then (5 # 100)%Q else tempo_espera in
    let depois := after_first is_ret_status ev in
    let ajuste (wl_real : Q) :=
      [Print (msg_saturacao wl_real); Call lockin_auto_sensitivity] in
    let reespera (wl_real : Q) :=
      [Sleep reestabilizacao d; Call (lockin_ler_XY wl_real)] in
    (count is_call_verificar_status ev <= 1)%nat /\
    (SIMULATE = true -> status_reported ev = Some (na_janela_de_saturacao wl)) /\
    match status_reported ev with
    | None =>
        count is_call_auto_sensitivity ev = 0%nat /\
        count (is_sleep_at reestabilizacao) ev = 0%nat /\
        count is_call_ler_XY ev = 0%nat
    | Some false =>
        count is_call_auto_sensitivity ev = 0%nat /\
        count (is_sleep_at reestabilizacao) ev = 0%nat /\
        exists wl_real leitura,
          depois = Call (lockin_ler_XY wl_real) :: leitura
    | Some true =>
        count is_call_auto_sensitivity ev = 1%nat /\
        (count (is_sleep_at reestabilizacao) ev <= 1)%nat /\
        if SIMULATE then
          exists wl_real leitura,
            depois = ajuste wl_real ++ Print msg_sim_auto_sensitivity ::
                     reespera wl_real ++ leitura
        else
          (* the answer to the [AS] command, given the log up to it *)
          match hw_write hw (h ++ before_first is_write_AS ev ++ [Write AS]) with
          | Ok _ =>
              exists wl_real leitura,
                depois = ajuste wl_real ++ Write AS :: reespera wl_real ++ leitura
          | Raise e =>
              outcome_of run = Raise e /\
              exists wl_real, depois = ajuste wl_real ++ [Write AS]
          end
    end.
Proof.
  intros te wl [[cl lb] [ins ta] dd] h. cbv zeta.
  destruct SIMULATE.
  - run_model. unfold lift, py_truediv. cbn -[Qltb]. rewrite janela_simulada.
    destruct (na_janela_de_saturacao wl); case_answers; cbn; fecha_passo.
  - run_model. unfold lift, py_truediv.
    case_answers_hist; cbn -[Qltb]; norm_hist;
      repeat (match goal with E : _ = _ |- _ => rewrite E end);
      cbn; fecha_passo.
Qed.

(** What one step does to the dataset: a step that returns has appended
    exactly one row, whose wavelength is the position the monochromator
    now holds (the requested one in the simulated configuration) and whose
    magnitude and phase are derived from its [x] and [y]; a step that
    raises leaves the dataset as it was. *)
Lemma passo_dados :
  forall (tempo_espera : Q) (wl : Z) (s : Experimento.self) (h : history),
    let run := Experimento.passo SIMULATE hw math tempo_espera wl s h in
    match outcome_of run with
    | Ok _ =>
        exists a,
          Experimento.dados (state_of run) = Experimento.dados s ++ [a] /\
          BenthamMonochromator.current_lambda (Experimento.mono (state_of run))
          = Some (am_wl a) /\
          (SIMULATE = true -> am_wl a = inject_Z wl) /\
          am_r a = math_sqrt math (am_x a ^ 2 + am_y a ^ 2) /\
          am_fase a = math_degrees math (math_atan2 math (am_y a) (am_x a))
    | Raise _ => Experimento.dados (state_of run) = Experimento.dados s
    end.
Proof.
  intros te wl [[cl lb] [ins ta] dd] h. cbv zeta.
  destruct SIMULATE; run_model; case_answers; cbn;
    first [ reflexivity
          | eexists; repeat split; first [reflexivity | discriminate] ].
Qed.

(** The calls one step makes: one [mover_para], at most one [ler_XY], and
    no shutdown. *)
Lemma passo_chamadas :
  forall (tempo_espera : Q) (wl : Z) (s : Experimento.self) (h : history),
    let run := Experimento.passo SIMULATE hw math tempo_espera wl s h in
    count is_call_mover_para (events_of run) = 1%nat /\
    count is_call_mono_fechar (events_of run) = 0%nat /\
    count is_call_lockin_fechar (events_of run) = 0%nat /\
    (is_ok (outcome_of run) = true -> count is_call_ler_XY (events_of run) = 1%nat) /\
    (count is_call_ler_XY (events_of run) <= 1)%nat.
Proof.
  intros te wl [[cl lb] [ins ta] dd] h. cbv zeta.
  destruct SIMULATE; run_model; case_answers; cbn;
    repeat split; try reflexivity; try discriminate; lia.
Qed.

End PassoFacts.

(** C2, counterexample.  In the simulated configuration with tau = 0.3 the
    only wait before the first saturation query lasts 0.05 s, which is not
    5 * tau. *)
Lemma espera_simulada_nao_e_5_tau :
  let tau := (3 # 10)%Q in
  let ev := events_of (Experimento.passo true Bancada.ideal Bancada.math_aprox
                         (tau * 5) 400 Experimento.__init__ []) in
  before_first is_consulta ev
  = [Call (mono_mover_para (inject_Z 400)); Sleep estabilizacao (5 # 100)] /\
  ~ ((5 # 100) == 5 * tau)%Q.
Proof.
  split.
  - reflexivity.
  - unfold Qeq. cbn. discriminate.
Qed.

(** ** The loop *)

Lemma for_each_cons {S} (body : Z -> M S unit) (x : Z) (l : list Z) (s : S) (h : history) :
  for_each (x :: l) body s h =
  match body x s h with
  | (Ok _, s1, ev1) =>
      match for_each l body s1 (h ++ ev1) with
      | (r, s2, ev2) => (r, s2, ev1 ++ ev2)
      end
  | (Raise e, s1, ev1) => (Raise e, s1, ev1)
  end.
Proof. reflexivity. Qed.

(** A loop whose first steps return and whose next step raises stops
    there. *)
Lemma for_each_raise {S} (body : Z -> M S unit) (l1 : list Z) :
  forall (x : Z) (l2 : list Z) (s s1 s2 : S) (h ev1 ev2 : list event) (e : exn),
    for_each l1 body s h = (Ok tt, s1, ev1) ->
    body x s1 (h ++ ev1) = (Raise e, s2, ev2) ->
    for_each (l1 ++ x :: l2) body s h = (Raise e, s2, ev1 ++ ev2).
Proof.
  induction l1 as [|y l1 IH]; intros x l2 s s1 s2 h ev1 ev2 e Hl1 Hx.
  - cbn in Hl1. injection Hl1 as <- <-.
    rewrite app_nil_r in Hx. cbn [app]. rewrite for_each_cons, Hx. reflexivity.
  - cbn [app]. rewrite for_each_cons in *.
    destruct (body y s h) as [[[[] | ey] sy] evy]; [| discriminate].
    destruct (for_each l1 body sy (h ++ evy)) as [[r1 s1'] ev1'] eqn:E1.
    injection Hl1 as -> -> <-.
    rewrite app_assoc in Hx.
    rewrite (IH x l2 sy s1 s2 (h ++ evy) ev1' ev2 e E1 Hx).
    rewrite app_assoc. reflexivity.
Qed.

Section LacoFacts.
Variable SIMULATE : bool.
Variable hw : hardware.
Variable math : pymath.
Variable tempo_espera : Q.

(** The loop appends to the dataset, one row per completed step, and never
    shuts an instrument down.  When it returns, every requested wavelength
    has its row, in order; when it raises, the step that raised was the
    last one begun. *)
Lemma laco_dados :
  forall (l : list Z) (s : Experimento.self) (h : history),
    let run := for_each l (Experimento.passo SIMULATE hw math tempo_espera) s h in
    exists recs,
      Experimento.dados (state_of run) = Experimento.dados s ++ recs /\
      count is_call_mono_fechar (events_of run) = 0%nat /\
      count is_call_lockin_fechar (events_of run) = 0%nat /\
      match outcome_of run with
      | Ok _ =>
          List.length recs = List.length l /\
          (SIMULATE = true -> map am_wl recs = map inject_Z l) /\
          count is_call_mover_para (events_of run) = List.length l
      | Raise _ =>
          (List.length recs < List.length l)%nat /\
          count is_call_mover_para (events_of run) = S (List.length recs)
      end.
Proof.
  induction l as [|wl l IH]; intros s h; cbv zeta.
  - exists []. cbn. rewrite app_nil_r. repeat split; auto.
  - rewrite for_each_cons.
    pose proof (passo_dados SIMULATE hw math tempo_espera wl s h) as Hd.
    pose proof (passo_chamadas SIMULATE hw math tempo_espera wl s h) as Hc.
    cbv zeta in Hd, Hc.
    destruct (Experimento.passo SIMULATE hw math tempo_espera wl s h) as [[[[] | e] s1] ev1];
      unfold outcome_of, state_of, events_of in Hd, Hc; cbn [fst snd] in Hd, Hc;
      destruct Hc as [Hmv [Hmf [Hlf _]]].
    + destruct Hd as [a [Ha [_ [Hwl _]]]].
      specialize (IH s1 (h ++ ev1)). cbv zeta in IH.
      destruct (for_each l _ s1 (h ++ ev1)) as [[r2 s2] ev2].
      unfold outcome_of, state_of, events_of in *. cbn [fst snd] in *.
      destruct IH as [recs [Hrecs [Hmf2 [Hlf2 Hout]]]].
      exists (a :: recs).
      rewrite !count_app, Hmv, Hmf, Hlf, Hmf2, Hlf2, Hrecs, Ha, <- app_assoc.
      repeat split; try reflexivity.
      destruct r2.
      * destruct Hout as [Hlen [Hsim Hcnt]]. cbn [List.length map]. repeat split.
        -- now rewrite Hlen.
        -- intro Hs. now rewrite (Hwl Hs), (Hsim Hs).
        -- now rewrite Hcnt.
      * destruct Hout as [Hlen Hcnt]. cbn [List.length].
        split; [lia | now rewrite Hcnt].
    + exists []. unfold outcome_of, state_of, events_of. cbn [fst snd List.length].
      rewrite app_nil_r. repeat split; auto; lia.
Qed.

End LacoFacts.

(** ** The whole sweep *)

Section VarreduraFacts.
Variable SIMULATE : bool.
Variable hw : hardware.
Variable math : pymath.

(** The set-up phase neither touches the dataset nor moves or shuts
    anything down. *)
Lemma abertura_efeitos :
  forall (start end_ step : Z) (tau : Q) (s : Experimento.self) (h : history),
    let ab := Experimento.abertura SIMULATE hw start end_ step tau s h in
    Experimento.dados (state_of ab) = Experimento.dados s /\
    count is_call_mono_fechar (events_of ab) = 0%nat /\
    count is_call_lockin_fechar (events_of ab) = 0%nat /\
    count is_call_mover_para (events_of ab) = 0%nat.
Proof.
  intros start end_ step tau [[cl lb] [ins ta] dd] h. cbv zeta.
  destruct SIMULATE; run_model; case_answers; cbn; repeat split.
Qed.

(** On real hardware a set-up phase that returns has loaded the driver. *)
Lemma abertura_lib :
  forall (start end_ step : Z) (tau : Q) (s : Experimento.self) (h : history),
    let ab := Experimento.abertura SIMULATE hw start end_ step tau s h in
    SIMULATE = false -> is_ok (outcome_of ab) = true ->
    BenthamMonochromator.lib (Experimento.mono (state_of ab)) <> None.
Proof.
  intros start end_ step tau [[cl lb] [ins ta] dd] h. cbv zeta. intros ->.
  run_model; case_answers; cbn; intros; discriminate.
Qed.

(** No step unloads the driver. *)
Lemma passo_lib :
  forall (tempo_espera : Q) (wl : Z) (s : Experimento.self) (h : history),
    BenthamMonochromator.lib
      (Experimento.mono
         (state_of (Experimento.passo SIMULATE hw math tempo_espera wl s h)))
    = BenthamMonochromator.lib (Experimento.mono s).
Proof.
  intros te wl [[cl lb] [ins ta] dd] h.
  destruct SIMULATE; run_model; case_answers; reflexivity.
Qed.

Lemma laco_lib :
  forall (tempo_espera : Q) (l : list Z) (s : Experimento.self) (h : history),
    BenthamMonochromator.lib
      (Experimento.mono
         (state_of (for_each l (Experimento.passo SIMULATE hw math tempo_espera) s h)))
    = BenthamMonochromator.lib (Experimento.mono s).
Proof.
  intros te l. induction l as [|wl l IH]; intros s h; [reflexivity|].
  rewrite for_each_cons.
  pose proof (passo_lib te wl s h) as Hp.
  destruct (Experimento.passo SIMULATE hw math te wl s h) as [[[[] | e] s1] ev1];
    unfold state_of in Hp; cbn [fst snd] in Hp; [| exact Hp].
  specialize (IH s1 (h ++ ev1)).
  destruct (for_each l _ s1 (h ++ ev1)) as [[r2 s2] ev2].
  unfold state_of in *. cbn [fst snd] in *. congruence.
Qed.

(** The [finally] block keeps the dataset, moves nothing, always invokes
    the monochromator's shutdown, and invokes the lock-in's shutdown at
    most once. *)
Lemma finalizacao_efeitos :
  forall (s : Experimento.self) (h : history),
    let fim := Experimento.finalizacao SIMULATE hw s h in
    Experimento.dados (state_of fim) = Experimento.dados s /\
    count is_call_mono_fechar (events_of fim) = 1%nat /\
    (count is_call_lockin_fechar (events_of fim) <= 1)%nat /\
    count is_call_mover_para (events_of fim) = 0%nat.
Proof.
  intros [[cl lb] [ins ta] dd] h. cbv zeta.
  destruct SIMULATE; run_model; case_answers; cbn; repeat split; lia.
Qed.

(** The lock-in's shutdown is invoked whenever the monochromator's
    returns: always in the simulated configuration, and on real hardware
    when the driver is loaded and its park and close calls succeed. *)
Lemma finalizacao_lockin :
  forall (s : Experimento.self) (h : history),
    SIMULATE = true \/
    (desligamento_confiavel hw /\
     BenthamMonochromator.lib (Experimento.mono s) <> None) ->
    count is_call_lockin_fechar
      (events_of (Experimento.finalizacao SIMULATE hw s h)) = 1%nat.
Proof.
  intros [[cl lb] [ins ta] dd] h [-> | [Hok Hlib]].
  - reflexivity.
  - cbn in Hlib. destruct lb as [l|]; [| congruence].
    assert (Hpark : forall h', hw_BI_park hw h' = Ok tt) by (intro; apply Hok).
    assert (Hclose : forall h', hw_BI_close_system hw h' = Ok tt) by (intro; apply Hok).
    destruct SIMULATE; [reflexivity|].
    run_model. cbn. rewrite Hpark, Hclose. case_answers; reflexivity.
Qed.

(** What the range loop does, from the state in which the [try] block is
    entered. *)
Lemma laco_efeitos :
  forall (tempo_espera : Q) (start end_ step : Z) (s : Experimento.self) (h : history),
    let run := Experimento.laco SIMULATE hw math tempo_espera start end_ step s h in
    exists recs,
      Experimento.dados (state_of run) = Experimento.dados s ++ recs /\
      count is_call_mono_fechar (events_of run) = 0%nat /\
      count is_call_lockin_fechar (events_of run) = 0%nat /\
      BenthamMonochromator.lib (Experimento.mono (state_of run))
      = BenthamMonochromator.lib (Experimento.mono s) /\
      match outcome_of run with
      | Ok _ =>
          exists l,
            py_range start (end_ + 1) step = Ok l /\
            List.length recs = List.length l /\
            (SIMULATE = true -> map am_wl recs = map inject_Z l) /\
            count is_call_mover_para (events_of run) = List.length l
      | Raise _ => True
      end.
Proof.
  intros te start end_ step s h. cbv zeta. unfold Experimento.laco.
  destruct (py_range start (end_ + 1) step) as [l | e].
  - destruct (laco_dados SIMULATE hw math te l s h) as [recs [Hd [Hm [Hl Hout]]]].
    exists recs. repeat split; auto.
    + apply laco_lib.
    + destruct (outcome_of _); [| exact I].
      exists l. destruct Hout as [H1 [H2 H3]]. auto.
  - exists []. cbn. rewrite app_nil_r. repeat split.
Qed.

Lemma executar_varredura_eq :
  forall (start end_ step : Z) (tau : Q) (s : Experimento.self) (h : history),
    Experimento.executar_varredura SIMULATE hw math start end_ step tau s h =
    match Experimento.abertura SIMULATE hw start end_ step tau s h with
    | (Ok _, s0, ev0) =>
        match Experimento.laco SIMULATE hw math (tau * 5) start end_ step s0 (h ++ ev0) with
        | (r, s1, ev1) =>
            match Experimento.finalizacao SIMULATE hw s1 ((h ++ ev0) ++ ev1) with
            | (Ok _, s2, ev2) => (r, s2, ev0 ++ ev1 ++ ev2)
            | (Raise e, s2, ev2) => (Raise e, s2, ev0 ++ ev1 ++ ev2)
            end
        end
    | (Raise e, s0, ev0) => (Raise e, s0, ev0)
    end.
Proof.
  intros. unfold Experimento.executar_varredura, bind, try_finally.
  destruct (Experimento.abertura _ _ _ _ _ _ _ _) as [[[[] | e] s0] ev0]; [| reflexivity].
  destruct (Experimento.laco _ _ _ _ _ _ _ _ _) as [[r s1] ev1].
  destruct (Experimento.finalizacao _ _ _ _) as [[[[] | e] s2] ev2]; reflexivity.
Qed.

(** The dataset after a sweep is the dataset before it followed by the
    rows of the sweep; a sweep that returns has one row per wavelength of
    its range. *)
Lemma executar_varredura_dados :
  forall (start end_ step : Z) (tau : Q) (s : Experimento.self) (h : history),
    let run := Experimento.executar_varredura SIMULATE hw math start end_ step tau s h in
    exists recs,
      Experimento.dados (state_of run) = Experimento.dados s ++ recs /\
      match outcome_of run with
      | Ok _ =>
          exists l,
            py_range start (end_ + 1) step = Ok l /\
            List.length recs = List.length l /\
            (SIMULATE = true -> map am_wl recs = map inject_Z l) /\
            count is_call_mover_para (events_of run) = List.length l
      | Raise _ => True
      end.
Proof.
  intros start end_ step tau s h. cbv zeta. rewrite executar_varredura_eq.
  pose proof (abertura_efeitos start end_ step tau s h) as Ha. cbv zeta in Ha.
  destruct (Experimento.abertura _ _ _ _ _ _ _ _) as [[[[] | e] s0] ev0];
    unfold outcome_of, state_of, events_of in *; cbn [fst snd] in *;
    destruct Ha as [Hd0 [_ [_ Hmv0]]].
  - destruct (laco_efeitos (tau * 5) start end_ step s0 (h ++ ev0))
      as [recs [Hd1 [_ [_ [_ Hout]]]]].
    destruct (Experimento.laco _ _ _ _ _ _ _ _ _) as [[r s1] ev1].
    pose proof (finalizacao_efeitos s1 ((h ++ ev0) ++ ev1)) as Hf. cbv zeta in Hf.
    destruct (Experimento.finalizacao _ _ _ _) as [[rf s2] ev2].
    unfold outcome_of, state_of, events_of in *; cbn [fst snd] in *.
    destruct Hf as [Hd2 [_ [_ Hmv2]]].
    exists recs.
    destruct rf as [[] | e]; cbn [fst snd]; (split; [congruence |]); [| exact I].
    destruct r; [| exact I].
    destruct Hout as [l [Hr [Hlen [Hsim Hmv1]]]].
    exists l. rewrite !count_app, Hmv0, Hmv1, Hmv2. repeat split; auto; lia.
  - exists []. rewrite app_nil_r. auto.
Qed.

(** C1 (amended).  Once the three set-up calls have returned and the [try]
    block is entered, every exit path of [executar_varredura] (normal
    completion or an exception raised anywhere in the loop) invokes
    [mono.fechar] exactly once and [lockin.fechar] at most once, and
    exactly once whenever [mono.fechar] returns: always in the simulated
    configuration, and on real hardware when the driver's park and close
    calls succeed.  When a set-up call raises, the sweep ends there and
    invokes neither shutdown. *)
Theorem fechar_em_toda_saida :
  forall (start end_ step : Z) (tau : Q) (s : Experimento.self) (h : history),
    let ab := Experimento.abertura SIMULATE hw start end_ step tau s h in
    let run := Experimento.executar_varredura SIMULATE hw math start end_ step tau s h in
    match outcome_of ab with
    | Ok _ =>
        count is_call_mono_fechar (events_of run) = 1%nat /\
        (count is_call_lockin_fechar (events_of run) <= 1)%nat /\
        (SIMULATE = true \/ desligamento_confiavel hw ->
         count is_call_lockin_fechar (events_of run) = 1%nat)
    | Raise _ =>
        run = ab /\
        count is_call_mono_fechar (events_of run) = 0%nat /\
        count is_call_lockin_fechar (events_of run) = 0%nat
    end.
Proof.
  intros start end_ step tau s h. cbv zeta. rewrite executar_varredura_eq.
  pose proof (abertura_efeitos start end_ step tau s h) as Ha.
  pose proof (abertura_lib start end_ step tau s h) as Hlib.
  cbv zeta in Ha, Hlib.
  destruct (Experimento.abertura _ _ _ _ _ _ _ _) as [[[[] | e] s0] ev0];
    unfold outcome_of, state_of, events_of in *; cbn [fst snd is_ok] in *;
    destruct Ha as [_ [Hm0 [Hl0 _]]]; [| auto].
  destruct (laco_efeitos (tau * 5) start end_ step s0 (h ++ ev0))
    as [recs [_ [Hm1 [Hl1 [Hlib1 _]]]]].
  destruct (Experimento.laco _ _ _ _ _ _ _ _ _) as [[r s1] ev1].
  pose proof (finalizacao_efeitos s1 ((h ++ ev0) ++ ev1)) as Hf.
  pose proof (finalizacao_lockin s1 ((h ++ ev0) ++ ev1)) as Hfl.
  cbv zeta in Hf.
  destruct (Experimento.finalizacao _ _ _ _) as [[rf s2] ev2].
  unfold outcome_of, state_of, events_of in *; cbn [fst snd] in *.
  destruct Hf as [_ [Hm2 [Hl2 _]]].
  assert (Hcount :
    count is_call_mono_fechar (ev0 ++ ev1 ++ ev2) = 1%nat /\
    (count is_call_lockin_fechar (ev0 ++ ev1 ++ ev2) <= 1)%nat /\
    (SIMULATE = true \/ desligamento_confiavel hw ->
     count is_call_lockin_fechar (ev0 ++ ev1 ++ ev2) = 1%nat)).
  { rewrite !count_app, Hm0, Hm1, Hm2, Hl0, Hl1. repeat split; try lia.
    intros Hcase. rewrite Hfl; [reflexivity|].
    destruct Hcase as [Hs | Hok]; [now left|].
    destruct SIMULATE eqn:Es; [now left|]. right. split; [exact Hok|].
    rewrite Hlib1. apply Hlib; reflexivity. }
  destruct rf as [[] | e]; exact Hcount.
Qed.

(** C5 (amended).  A sweep that completes normally appends to the dataset
    exactly one row per wavelength of [range(start, end + 1, step)], in
    sweep order, so on an instance whose dataset was empty the dataset
    holds exactly these rows; in the simulated configuration the
    wavelength field of each row is the requested wavelength. *)
Theorem uma_amostra_por_comprimento_de_onda :
  forall (start end_ step : Z) (tau : Q) (s : Experimento.self) (h : history),
    let run := Experimento.executar_varredura SIMULATE hw math start end_ step tau s h in
    outcome_of run = Ok tt ->
    exists l recs,
      py_range start (end_ + 1) step = Ok l /\
      Experimento.dados (state_of run) = Experimento.dados s ++ recs /\
      (Experimento.dados s = [] -> Experimento.dados (state_of run) = recs) /\
      List.length recs = List.length l /\
      (SIMULATE = true -> map am_wl recs = map inject_Z l).
Proof.
  intros start end_ step tau s h run Hok.
  destruct (executar_varredura_dados start end_ step tau s h) as [recs [Hd Hout]].
  fold run in Hd, Hout. rewrite Hok in Hout.
  destruct Hout as [l [Hr [Hlen [Hsim _]]]].
  exists l, recs. repeat split; auto.
  intros Hnil. now rewrite Hd, Hnil.
Qed.

(** C9.  No operation of the controller clears the dataset: a sweep,
    however it ends, leaves the earlier rows in place and only appends,
    and [salvar_e_plotar] leaves the controller as it was.  After two
    completed sweeps on the same instance the dataset is the earlier
    dataset followed by the rows of the first sweep and then those of the
    second. *)
Theorem dados_so_crescem :
  (forall (start end_ step : Z) (tau : Q) (s : Experimento.self) (h : history),
      exists recs,
        Experimento.dados
          (state_of (Experimento.executar_varredura SIMULATE hw math
                       start end_ step tau s h))
        = Experimento.dados s ++ recs) /\
  (forall (s : Experimento.self) (h : history),
      state_of (Experimento.salvar_e_plotar s h) = s) /\
  (forall (start1 end1 step1 : Z) (tau1 : Q) (start2 end2 step2 : Z) (tau2 : Q)
          (s : Experimento.self) (h : history),
      let run1 := Experimento.executar_varredura SIMULATE hw math
                    start1 end1 step1 tau1 s h in
      let run2 := Experimento.executar_varredura SIMULATE hw math
                    start2 end2 step2 tau2 (state_of run1) (h ++ events_of run1) in
      outcome_of run1 = Ok tt -> outcome_of run2 = Ok tt ->
      exists l1 l2 recs1 recs2,
        py_range start1 (end1 + 1) step1 = Ok l1 /\
        py_range start2 (end2 + 1) step2 = Ok l2 /\
        Experimento.dados (state_of run2) = Experimento.dados s ++ recs1 ++ recs2 /\
        List.length recs1 = List.length l1 /\
        List.length recs2 = List.length l2).
Proof.
  split; [| split].
  - intros start end_ step tau s h.
    destruct (executar_varredura_dados start end_ step tau s h) as [recs [Hd _]].
    now exists recs.
  - reflexivity.
  - intros start1 end1 step1 tau1 start2 end2 step2 tau2 s h run1 run2 Hok1 Hok2.
    destruct (executar_varredura_dados start1 end1 step1 tau1 s h)
      as [recs1 [Hd1 Hout1]].
    fold run1 in Hd1, Hout1. rewrite Hok1 in Hout1.
    destruct Hout1 as [l1 [Hr1 [Hlen1 _]]].
    destruct (executar_varredura_dados start2 end2 step2 tau2
                (state_of run1) (h ++ events_of run1)) as [recs2 [Hd2 Hout2]].
    fold run2 in Hd2, Hout2. rewrite Hok2 in Hout2.
    destruct Hout2 as [l2 [Hr2 [Hlen2 _]]].
    exists l1, l2, recs1, recs2. repeat split; auto.
    now rewrite Hd2, Hd1, <- app_assoc.
Qed.

(** A step that raises after invoking [ler_XY] raised inside it: nothing
    follows the invocation but, on real hardware, the query itself. *)
Lemma passo_falha_na_leitura :
  forall (tempo_espera : Q) (wl : Z) (s : Experimento.self) (h : history),
    let run := Experimento.passo SIMULATE hw math tempo_espera wl s h in
    is_ok (outcome_of run) = false ->
    count is_call_ler_XY (events_of run) = 1%nat ->
    after_first is_call_ler_XY (events_of run) = [] \/
    after_first is_call_ler_XY (events_of run) = [Query XY].
Proof.
  intros te wl [[cl lb] [ins ta] dd] h. cbv zeta.
  destruct SIMULATE; run_model; case_answers; cbn; intros; auto; discriminate.
Qed.

(** C8.  Let the sweep have entered its loop and completed the steps of
    the wavelengths [l1], and let the read of the next step raise.  Then
    the sweep raises; after the failing step it only runs the [finally]
    block, so no step is begun for the remaining wavelengths [l2]; the
    dataset is what it was when the read failed, namely the earlier rows
    followed by one row per wavelength of [l1]; and [salvar_e_plotar],
    called afterwards, hands exactly that dataset to the sink. *)
Theorem leitura_falha_interrompe_varredura :
  forall (start end_ step : Z) (tau : Q) (s : Experimento.self) (h : history)
         (l1 : list Z) (wl : Z) (l2 : list Z)
         (s0 s1 s2 : Experimento.self) (ev0 ev1 ev2 : list event) (e : exn),
    py_range start (end_ + 1) step = Ok (l1 ++ wl :: l2) ->
    Experimento.abertura SIMULATE hw start end_ step tau s h = (Ok tt, s0, ev0) ->
    for_each l1 (Experimento.passo SIMULATE hw math (tau * 5)) s0 (h ++ ev0)
    = (Ok tt, s1, ev1) ->
    Experimento.passo SIMULATE hw math (tau * 5) wl s1 ((h ++ ev0) ++ ev1)
    = (Raise e, s2, ev2) ->
    count is_call_ler_XY ev2 = 1%nat ->
    let run := Experimento.executar_varredura SIMULATE hw math start end_ step tau s h in
    let fim := Experimento.finalizacao SIMULATE hw s2 (((h ++ ev0) ++ ev1) ++ ev2) in
    is_ok (outcome_of run) = false /\
    events_of run = ev0 ++ (ev1 ++ ev2) ++ events_of fim /\
    count is_call_mover_para (events_of run) = S (List.length l1) /\
    Experimento.dados (state_of run) = Experimento.dados s1 /\
    (exists recs,
        Experimento.dados s1 = Experimento.dados s ++ recs /\
        List.length recs = List.length l1) /\
    (forall h',
        events_of (Experimento.salvar_e_plotar (state_of run) h')
        = [Call exp_salvar_e_plotar;
           ToCsv "espectro.csv" (Experimento.dados s1);
           Plot (map am_wl (Experimento.dados s1)) (map am_r (Experimento.dados s1))]).
Proof.
  intros start end_ step tau s h l1 wl l2 s0 s1 s2 ev0 ev1 ev2 e
         Hrange Hab Hl1 Hwl Hread run fim.
  assert (Hlaco :
    Experimento.laco SIMULATE hw math (tau * 5) start end_ step s0 (h ++ ev0)
    = (Raise e, s2, ev1 ++ ev2)).
  { unfold Experimento.laco. rewrite Hrange.
    eapply for_each_raise; eassumption. }
  pose proof (abertura_efeitos start end_ step tau s h) as Ha.
  cbv zeta in Ha. rewrite Hab in Ha.
  unfold state_of, events_of in Ha. cbn [fst snd] in Ha.
  destruct Ha as [Hd0 [_ [_ Hmv0]]].
  destruct (laco_dados SIMULATE hw math (tau * 5) l1 s0 (h ++ ev0))
    as [recs [Hd1 [_ [_ Hout1]]]].
  rewrite Hl1 in Hd1, Hout1.
  unfold outcome_of, state_of, events_of in Hd1, Hout1. cbn [fst snd] in Hd1, Hout1.
  destruct Hout1 as [Hlen1 [_ Hmv1]].
  pose proof (passo_dados SIMULATE hw math (tau * 5) wl s1 ((h ++ ev0) ++ ev1)) as Hd2.
  pose proof (passo_chamadas SIMULATE hw math (tau * 5) wl s1 ((h ++ ev0) ++ ev1)) as Hc2.
  cbv zeta in Hd2, Hc2. rewrite Hwl in Hd2, Hc2.
  unfold outcome_of, state_of, events_of in Hd2, Hc2. cbn [fst snd] in Hd2, Hc2.
  destruct Hc2 as [Hmv2 _].
  pose proof (finalizacao_efeitos s2 (((h ++ ev0) ++ ev1) ++ ev2)) as Hf.
  cbv zeta in Hf. fold fim in Hf.
  assert (Hrun :
    events_of run = ev0 ++ (ev1 ++ ev2) ++ events_of fim /\
    state_of run = state_of fim /\ is_ok (outcome_of run) = false).
  { unfold run. rewrite executar_varredura_eq, Hab, Hlaco.
    rewrite (app_assoc (h ++ ev0) ev1 ev2). fold fim.
    destruct fim as [[[[] | e'] sf] evf]; repeat split. }
  destruct Hrun as [Hev [Hst Hraise]].
  destruct Hf as [Hdf [_ [_ Hmvf]]].
  repeat split.
  - exact Hraise.
  - exact Hev.
  - rewrite Hev, !count_app, Hmv0, Hmv1, Hmv2, Hmvf. lia.
  - rewrite Hst, Hdf, Hd2. reflexivity.
  - exists recs. split; [congruence | exact Hlen1].
  - intros h'. rewrite Hst. unfold Experimento.salvar_e_plotar.
    unfold bind, emit, gets, events_of. cbn. rewrite Hdf, Hd2. reflexivity.
Qed.

End VarreduraFacts.

(** ** The waits of a sweep *)

Lemma cada_espera_app (site : sleep_site) (d : Q) (seguinte : event -> bool)
    (a b : list event) :
  cada_espera site d seguinte a -> cada_espera site d seguinte b ->
  cada_espera site d seguinte (a ++ b).
Proof.
  intros Ha Hb. induction a as [|e a IH]; [exact Hb |].
  cbn [app cada_espera] in *. destruct Ha as [He Ha]. split; [| exact (IH Ha)].
  destruct (is_sleep_at site e); [| exact I].
  destruct He as [He Hn]. split; [exact He |].
  destruct a; [contradiction | exact Hn].
Qed.

Lemma consultas_apos_espera_app (a b : list event) :
  (forall esperou, consultas_apos_espera esperou b = true) ->
  forall esperou,
    consultas_apos_espera esperou a = true ->
    consultas_apos_espera esperou (a ++ b) = true.
Proof.
  intros Hb. induction a as [|e a IH]; intros esperou Ha; [apply Hb |].
  destruct e as [[] | | | [] | | | | | | | | | | | | | | |];
    cbn [app consultas_apos_espera] in *;
    try (apply andb_true_iff in Ha; destruct Ha as [Ha1 Ha2];
         apply andb_true_iff; split; [exact Ha1 |]);
    apply IH; assumption.
Qed.

Section EsperaFacts.
Variable SIMULATE : bool.
Variable hw : hardware.
Variable math : pymath.

(** The waits of one step, and what they are counted against. *)
Lemma passo_esperas :
  forall (tempo_espera : Q) (wl : Z) (s : Experimento.self) (h : history),
    let run := Experimento.passo SIMULATE hw math tempo_espera wl s h in
    let ev := events_of run in
    let d := if SIMULATE then (5 # 100)%Q else tempo_espera in
    cada_espera estabilizacao d is_call_verificar_status ev /\
    cada_espera reestabilizacao d is_call_ler_XY ev /\
    (forall esperou, consultas_apos_espera esperou ev = true) /\
    count is_call_verificar_status ev = count (is_sleep_at estabilizacao) ev /\
    count is_call_auto_sensitivity ev = count is_ret_overload ev /\
    (count (is_sleep_at reestabilizacao) ev <= count is_call_auto_sensitivity ev)%nat /\
    count is_call_mover_para ev = 1%nat /\
    (count (is_sleep_at estabilizacao) ev <= 1)%nat /\
    (is_ok (outcome_of run) = true ->
     count (is_sleep_at estabilizacao) ev = 1%nat /\
     count (is_sleep_at reestabilizacao) ev = count is_call_auto_sensitivity ev).
Proof.
  intros te wl [[cl lb] [ins ta] dd] h. cbv zeta.
  destruct SIMULATE; run_model; unfold lift, py_truediv; case_answers; cbn;
    repeat split; try reflexivity; try discriminate; try lia.
Qed.


(** The set-up and the [finally] block make no wait, no query, no read
    and no scale adjustment. *)
Lemma abertura_esperas :
  forall (start end_ step : Z) (tau d : Q) (s : Experimento.self) (h : history),
    let ev := events_of (Experimento.abertura SIMULATE hw start end_ step tau s h) in
    cada_espera estabilizacao d is_call_verificar_status ev /\
    cada_espera reestabilizacao d is_call_ler_XY ev /\
    (forall esperou, consultas_apos_espera esperou ev = true) /\
    count is_call_verificar_status ev = 0%nat /\
    count (is_sleep_at estabilizacao) ev = 0%nat /\
    count is_call_auto_sensitivity ev = 0%nat /\
    count is_ret_overload ev = 0%nat /\
    count (is_sleep_at reestabilizacao) ev = 0%nat.
Proof.
  intros start end_ step tau d [[cl lb] [ins ta] dd] h. cbv zeta.
  destruct SIMULATE; run_model; case_answers; cbn; repeat split; reflexivity.
Qed.

Lemma finalizacao_esperas :
  forall (d : Q) (s : Experimento.self) (h : history),
    let ev := events_of (Experimento.finalizacao SIMULATE hw s h) in
    cada_espera estabilizacao d is_call_verificar_status ev /\
    cada_espera reestabilizacao d is_call_ler_XY ev /\
    (forall esperou, consultas_apos_espera esperou ev = true) /\
    count is_call_verificar_status ev = 0%nat /\
    count (is_sleep_at estabilizacao) ev = 0%nat /\
    count is_call_auto_sensitivity ev = 0%nat /\
    count is_ret_overload ev = 0%nat /\
    count (is_sleep_at reestabilizacao) ev = 0%nat.
Proof.
  intros d [[cl lb] [ins ta] dd] h. cbv zeta.
  destruct SIMULATE; run_model; case_answers; cbn; repeat split; reflexivity.
Qed.

Lemma laco_esperas :
  forall (tempo_espera : Q) (l : list Z) (s : Experimento.self) (h : history),
    let run := for_each l (Experimento.passo SIMULATE hw math tempo_espera) s h in
    let ev := events_of run in
    let d := if SIMULATE then (5 # 100)%Q else tempo_espera in
    cada_espera estabilizacao d is_call_verificar_status ev /\
    cada_espera reestabilizacao d is_call_ler_XY ev /\
    (forall esperou, consultas_apos_espera esperou ev = true) /\
    count is_call_verificar_status ev = count (is_sleep_at estabilizacao) ev /\
    count is_call_auto_sensitivity ev = count is_ret_overload ev /\
    (count (is_sleep_at reestabilizacao) ev <= count is_call_auto_sensitivity ev)%nat /\
    (count is_call_mover_para ev <= count (is_sleep_at estabilizacao) ev + 1)%nat /\
    (is_ok (outcome_of run) = true ->
     count (is_sleep_at estabilizacao) ev = List.length l /\
     count (is_sleep_at reestabilizacao) ev = count is_call_auto_sensitivity ev).
Proof.
  intros te l. induction l as [|wl l IH]; intros s h; cbv zeta.
  - cbn. repeat split; auto.
  - rewrite for_each_cons.
    pose proof (passo_esperas te wl s h) as Hp. cbv zeta in Hp.
    destruct (Experimento.passo SIMULATE hw math te wl s h) as [[[[] | e1] s1] ev1];
      unfold outcome_of, events_of in Hp; cbn [fst snd] in Hp;
      destruct Hp as [P1 [P2 [P3 [P4 [P5 [P6 [P7 [P8 P9]]]]]]]].
    + destruct (P9 eq_refl) as [P10 P11].
      specialize (IH s1 (h ++ ev1)). cbv zeta in IH.
      destruct (for_each l _ s1 (h ++ ev1)) as [[r2 s2] ev2].
      unfold outcome_of, events_of in *. cbn [fst snd] in *.
      destruct IH as [Q1 [Q2 [Q3 [Q4 [Q5 [Q6 [Q7 Q9]]]]]]].
      rewrite !count_app.
      split; [apply cada_espera_app; assumption |].
      split; [apply cada_espera_app; assumption |].
      split; [intro b; apply consultas_apos_espera_app; [exact Q3 | apply P3] |].
      repeat split; try lia.
      * destruct (Q9 H) as [Q10 _]. cbn [List.length]. lia.
      * destruct (Q9 H) as [_ Q11]. lia.
    + unfold outcome_of, events_of. cbn [fst snd is_ok].
      repeat split; auto; try lia; discriminate.
Qed.

(** The waits of a whole sweep. *)
Lemma varredura_esperas :
  forall (start end_ step : Z) (tau : Q) (s : Experimento.self) (h : history),
    let run := Experimento.executar_varredura SIMULATE hw math start end_ step tau s h in
    let ev := events_of run in
    let d := if SIMULATE then (5 # 100)%Q else (tau * 5)%Q in
    cada_espera estabilizacao d is_call_verificar_status ev /\
    cada_espera reestabilizacao d is_call_ler_XY ev /\
    consultas_apos_espera false ev = true /\
    count is_call_verificar_status ev = count (is_sleep_at estabilizacao) ev /\
    count is_call_auto_sensitivity ev = count is_ret_overload ev /\
    (count (is_sleep_at reestabilizacao) ev <= count is_call_auto_sensitivity ev)%nat /\
    (count is_call_mover_para ev <= count (is_sleep_at estabilizacao) ev + 1)%nat /\
    (is_ok (outcome_of run) = true ->
     (forall l, py_range start (end_ + 1) step = Ok l ->
                count (is_sleep_at estabilizacao) ev = List.length l) /\
     count (is_sleep_at reestabilizacao) ev = count is_call_auto_sensitivity ev).
Proof.
  intros start end_ step tau s h. cbv zeta. rewrite executar_varredura_eq.
  pose proof (abertura_esperas start end_ step tau
                (if SIMULATE then (5 # 100)%Q else (tau * 5)%Q) s h) as Ha.
  pose proof (abertura_efeitos SIMULATE hw start end_ step tau s h) as Hb.
  cbv zeta in Ha, Hb.
  destruct (Experimento.abertura _ _ _ _ _ _ _ _) as [[[[] | e] s0] ev0];
    unfold outcome_of, state_of, events_of in *; cbn [fst snd] in *;
    destruct Ha as [A1 [A2 [A3 [A4 [A5 [A6 [A7 A8]]]]]]];
    destruct Hb as [_ [_ [_ Amv]]].
  - assert (Hlaco :
      let run := Experimento.laco SIMULATE hw math (tau * 5) start end_ step s0 (h ++ ev0) in
      let ev := events_of run in
      let d := if SIMULATE then (5 # 100)%Q else (tau * 5)%Q in
      cada_espera estabilizacao d is_call_verificar_status ev /\
      cada_espera reestabilizacao d is_call_ler_XY ev /\
      (forall esperou, consultas_apos_espera esperou ev = true) /\
      count is_call_verificar_status ev = count (is_sleep_at estabilizacao) ev /\
      count is_call_auto_sensitivity ev = count is_ret_overload ev /\
      (count (is_sleep_at reestabilizacao) ev <= count is_call_auto_sensitivity ev)%nat /\
      (count is_call_mover_para ev <= count (is_sleep_at estabilizacao) ev + 1)%nat /\
      (is_ok (outcome_of run) = true ->
       (forall l, py_range start (end_ + 1) step = Ok l ->
                  count (is_sleep_at estabilizacao) ev = List.length l) /\
       count (is_sleep_at reestabilizacao) ev = count is_call_auto_sensitivity ev)).
    { unfold Experimento.laco.
      destruct (py_range start (end_ + 1) step) as [l | e].
      - pose proof (laco_esperas (tau * 5) l s0 (h ++ ev0)) as Hl. cbv zeta in Hl.
        cbv zeta.
        destruct Hl as [L1 [L2 [L3 [L4 [L5 [L6 [L7 L8]]]]]]].
        do 7 (split; [assumption |]).
        intro Hok. destruct (L8 Hok) as [L9 L10]. split; [| exact L10].
        intros l' Hl'. injection Hl' as <-. exact L9.
      - cbv zeta. unfold raise, outcome_of, events_of. cbn.
        repeat split; auto; discriminate. }
    cbv zeta in Hlaco.
    destruct (Experimento.laco _ _ _ _ _ _ _ _ _) as [[r1 s1] ev1].
    unfold outcome_of, events_of in Hlaco. cbn [fst snd] in Hlaco.
    destruct Hlaco as [L1 [L2 [L3 [L4 [L5 [L6 [L7 L8]]]]]]].
    pose proof (finalizacao_esperas
                  (if SIMULATE then (5 # 100)%Q else (tau * 5)%Q) s1 ((h ++ ev0) ++ ev1)) as Hf.
    pose proof (finalizacao_efeitos SIMULATE hw s1 ((h ++ ev0) ++ ev1)) as Hg.
    cbv zeta in Hf, Hg.
    destruct (Experimento.finalizacao _ _ _ _) as [[rf sf] evf].
    unfold outcome_of, state_of, events_of in Hf, Hg. cbn [fst snd] in Hf, Hg.
    destruct Hf as [F1 [F2 [F3 [F4 [F5 [F6 [F7 F8]]]]]]].
    destruct Hg as [_ [_ [_ Fmv]]].
    assert (Hcommon :
      let ev := ev0 ++ ev1 ++ evf in
      cada_espera estabilizacao (if SIMULATE then (5 # 100)%Q else (tau * 5)%Q)
        is_call_verificar_status ev /\
      cada_espera reestabilizacao (if SIMULATE then (5 # 100)%Q else (tau * 5)%Q)
        is_call_ler_XY ev /\
      consultas_apos_espera false ev = true /\
      count is_call_verificar_status ev = count (is_sleep_at estabilizacao) ev /\
      count is_call_auto_sensitivity ev = count is_ret_overload ev /\
      (count (is_sleep_at reestabilizacao) ev <= count is_call_auto_sensitivity ev)%nat /\
      (count is_call_mover_para ev <= count (is_sleep_at estabilizacao) ev + 1)%nat /\
      count (is_sleep_at estabilizacao) ev = count (is_sleep_at estabilizacao) ev1 /\
      count (is_sleep_at reestabilizacao) ev = count (is_sleep_at reestabilizacao) ev1 /\
      count is_call_auto_sensitivity ev = count is_call_auto_sensitivity ev1).
    { cbv zeta. rewrite !count_app.
      split; [repeat apply cada_espera_app; assumption |].
      split; [repeat apply cada_espera_app; assumption |].
      split.
      { apply consultas_apos_espera_app; [| apply A3].
        intro b. apply consultas_apos_espera_app; [exact F3 | apply L3]. }
      repeat split; lia. }
    cbv zeta in Hcommon.
    destruct Hcommon as [C1 [C2 [C3 [C4 [C5 [C6 [C7 [C8 [C9 C10]]]]]]]]].
    destruct rf as [[] | ef]; cbn [fst snd is_ok];
      (split; [exact C1 |]); (split; [exact C2 |]); (split; [exact C3 |]);
      (split; [exact C4 |]); (split; [exact C5 |]); (split; [exact C6 |]);
      (split; [exact C7 |]).
    + intro Hok. rewrite C8, C9, C10. exact (L8 Hok).
    + discriminate.
  - cbn [is_ok]. rewrite A4, A5, A6, A7, A8, Amv.
    split; [exact A1 |]. split; [exact A2 |]. split; [apply A3 |].
    do 4 (split; [lia |]). intro Hf. discriminate Hf.
Qed.

End EsperaFacts.

(** C2 (amended).  Over a whole sweep started with time constant [tau],
    however it ends: every settling wait lasts [tau * 5] on real hardware,
    and a fixed 0.05 s in the simulated configuration, and is immediately
    followed by a saturation query; no saturation query and no sample read
    is invoked between a move and the settling wait that follows it; there
    are as many settling waits as saturation queries; at most one move,
    the last, is left without its wait; and a sweep that completes has
    waited once for each wavelength of the range.  Within each step the
    move itself issues no query and no read, and once it has returned the
    next action of the step is the wait, followed at once by the first
    saturation query. *)
Theorem espera_antes_das_consultas :
  forall (SIMULATE : bool) (hw : hardware) (math : pymath),
    (forall (start end_ step : Z) (tau : Q) (s : Experimento.self) (h : history),
        let run := Experimento.executar_varredura SIMULATE hw math
                     start end_ step tau s h in
        let ev := events_of run in
        let d := if SIMULATE then (5 # 100)%Q else (tau * 5)%Q in
        cada_espera estabilizacao d is_call_verificar_status ev /\
        consultas_apos_espera false ev = true /\
        count is_call_verificar_status ev = count (is_sleep_at estabilizacao) ev /\
        (count is_call_mover_para ev <= count (is_sleep_at estabilizacao) ev + 1)%nat /\
        (forall l, py_range start (end_ + 1) step = Ok l ->
                   is_ok (outcome_of run) = true ->
                   count (is_sleep_at estabilizacao) ev = List.length l)) /\
    (forall (tempo_espera : Q) (wl : Z) (s : Experimento.self) (h : history),
        let d := if SIMULATE then (5 # 100)%Q else tempo_espera in
        let mv := Experimento.in_mono
                    (BenthamMonochromator.mover_para SIMULATE hw (inject_Z wl)) s h in
        let ev := events_of (Experimento.passo SIMULATE hw math tempo_espera wl s h) in
        count is_consulta (events_of mv) = 0%nat /\
        match outcome_of mv with
        | Raise _ => ev = events_of mv
        | Ok wl_real =>
            if Qltb d 0 then ev = events_of mv
            else exists rest,
                ev = events_of mv ++
                     Sleep estabilizacao d ::
                     Call (lockin_verificar_status wl_real) :: rest
        end).
Proof.
  intros sim hw math. split.
  - intros start end_ step tau s h. cbv zeta.
    destruct (varredura_esperas sim hw math start end_ step tau s h)
      as [H1 [_ [H3 [H4 [_ [_ [H7 H8]]]]]]].
    do 4 (split; [assumption |]).
    intros l Hl Hok. apply (H8 Hok). exact Hl.
  - apply passo_espera_apos_mover.
Qed.

(** C4.  In every sweep step the saturation status is queried at most
    once.  When it reports overload, the step invokes [auto_sensitivity]
    exactly once and, once that has returned, waits the settling interval
    again and then invokes the read: in the simulated configuration always,
    on real hardware when the instrument accepts the [AS] command (when it
    does not, the step raises there).  When it reports no overload the
    read is invoked at once, and the step has no [auto_sensitivity] call
    and no additional wait.  Over a whole sweep started with time constant
    [tau]: every additional wait lasts [tau * 5] on real hardware (0.05 s
    in the simulated configuration) and is immediately followed by the
    read; there are as many [auto_sensitivity] calls as overload reports,
    never more additional waits than [auto_sensitivity] calls, and as many
    when the sweep completes. *)
Theorem tratamento_de_saturacao :
  forall (SIMULATE : bool) (hw : hardware) (math : pymath),
    (forall (tempo_espera : Q) (wl : Z) (s : Experimento.self) (h : history),
        let run := Experimento.passo SIMULATE hw math tempo_espera wl s h in
        let ev := events_of run in
        let d := if SIMULATE then (5 # 100)%Q else tempo_espera in
        let depois := after_first is_ret_status ev in
        let ajuste (wl_real : Q) :=
          [Print (msg_saturacao wl_real); Call lockin_auto_sensitivity] in
        let reespera (wl_real : Q) :=
          [Sleep reestabilizacao d; Call (lockin_ler_XY wl_real)] in
        (count is_call_verificar_status ev <= 1)%nat /\
        (SIMULATE = true ->
         status_reported ev = Some (na_janela_de_saturacao wl)) /\
        match status_reported ev with
        | None =>
            count is_call_auto_sensitivity ev = 0%nat /\
            count (is_sleep_at reestabilizacao) ev = 0%nat /\
            count is_call_ler_XY ev = 0%nat
        | Some false =>
            count is_call_auto_sensitivity ev = 0%nat /\
            count (is_sleep_at reestabilizacao) ev = 0%nat /\
            exists wl_real leitura,
              depois = Call (lockin_ler_XY wl_real) :: leitura
        | Some true =>
            count is_call_auto_sensitivity ev = 1%nat /\
            (count (is_sleep_at reestabilizacao) ev <= 1)%nat /\
            if SIMULATE then
              exists wl_real leitura,
                depois = ajuste wl_real ++ Print msg_sim_auto_sensitivity ::
                         reespera wl_real ++ leitura
            else
              match hw_write hw (h ++ before_first is_write_AS ev ++ [Write AS]) with
              | Ok _ =>
                  exists wl_real leitura,
                    depois = ajuste wl_real ++ Write AS ::
                             reespera wl_real ++ leitura
              | Raise e =>
                  outcome_of run = Raise e /\
                  exists wl_real, depois = ajuste wl_real ++ [Write AS]
              end
        end) /\
    (forall (start end_ step : Z) (tau : Q) (s : Experimento.self) (h : history),
        let run := Experimento.executar_varredura SIMULATE hw math
                     start end_ step tau s h in
        let ev := events_of run in
        let d := if SIMULATE then (5 # 100)%Q else (tau * 5)%Q in
        cada_espera reestabilizacao d is_call_ler_XY ev /\
        count is_call_auto_sensitivity ev = count is_ret_overload ev /\
        (count (is_sleep_at reestabilizacao) ev
         <= count is_call_auto_sensitivity ev)%nat /\
        (is_ok (outcome_of run) = true ->
         count (is_sleep_at reestabilizacao) ev
         = count is_call_auto_sensitivity ev)).
Proof.
  intros sim hw math. split.
  - apply passo_saturacao.
  - intros start end_ step tau s h. cbv zeta.
    destruct (varredura_esperas sim hw math start end_ step tau s h)
      as [_ [H2 [_ [_ [H5 [H6 [_ H8]]]]]]].
    do 3 (split; [assumption |]).
    intro Hok. apply (H8 Hok).
Qed.

(** ** Magnitude and phase *)

Section DerivacaoFacts.
Import Reals Lra.
Import Derivacao.
Local Open Scope R_scope.

(** [math.degrees] maps [-pi, pi] into [-180, 180]. *)
Lemma degrees_bounds (a : R) : - PI <= a <= PI -> -180 <= degrees a <= 180.
Proof.
  intros [Hlo Hhi]. unfold degrees.
  assert (Hpi := PI_RGT_0).
  assert (H180 : 0 < 180 / PI) by (apply Rdiv_lt_0_compat; lra).
  assert (E : PI * (180 / PI) = 180) by (field; lra).
  revert H180 E. generalize (180 / PI). intros k Hk E.
  split; nra.
Qed.

Lemma atan2_bounds (y x : pyfloat) : - PI <= atan2 y x <= PI.
Proof.
  assert (Hpi := PI_RGT_0).
  unfold atan2.
  destruct (Req_dec_T (valor y) 0) as [Hy0 | Hy0].
  - destruct (bit_de_sinal x); [destruct (zero_negativo y) |]; lra.
  - destruct (Req_dec_T (valor x) 0) as [Hx0 | Hx0].
    + destruct (Rlt_dec (valor y) 0); lra.
    + pose proof (atan_bound (valor y / valor x)) as [Hlo Hhi].
      destruct (Rlt_dec 0 (valor x)) as [Hx | Hx]; [lra |].
      assert (Hxn : valor x < 0) by lra.
      destruct (Rlt_dec (valor y) 0) as [Hy | Hy].
      * assert (Hq : 0 < valor y / valor x).
        { replace (valor y / valor x) with ((- valor y) / (- valor x)) by (field; lra).
          apply Rdiv_lt_0_compat; lra. }
        pose proof (atan_increasing _ _ Hq) as Hinc. rewrite atan_0 in Hinc. lra.
      * assert (Hyp : 0 < valor y) by lra.
        assert (Hq : valor y / valor x < 0).
        { replace (valor y / valor x) with (- (valor y / (- valor x))) by (field; lra).
          assert (0 < valor y / (- valor x)) by (apply Rdiv_lt_0_compat; lra). lra. }
        pose proof (atan_increasing _ _ Hq) as Hinc. rewrite atan_0 in Hinc. lra.
Qed.

Lemma r_nonneg (x y : pyfloat) : 0 <= r x y.
Proof. unfold r. apply sqrt_pos. Qed.

Lemma r_quadrado (x y : pyfloat) : r x y * r x y = valor x ^ 2 + valor y ^ 2.
Proof. unfold r. apply sqrt_sqrt. nra. Qed.

(** With [t = b / a] and [a <> 0]: the norm of [(a, b)] is
    [|a| * sqrt (1 + t^2)]. *)
Lemma norma_fatorada (a b : R) :
  a <> 0 -> sqrt (a ^ 2 + b ^ 2) = Rabs a * sqrt (1 + Rsqr (b / a)).
Proof.
  intro Ha.
  assert (Hs : 0 <= 1 + Rsqr (b / a)) by (unfold Rsqr; nra).
  apply sqrt_lem_1.
  - nra.
  - apply Rmult_le_pos; [apply Rabs_pos | apply sqrt_pos].
  - replace (Rabs a * sqrt (1 + Rsqr (b / a)) * (Rabs a * sqrt (1 + Rsqr (b / a))))
      with ((Rabs a * Rabs a) * (sqrt (1 + Rsqr (b / a)) * sqrt (1 + Rsqr (b / a)))) by ring.
    rewrite sqrt_sqrt by exact Hs.
    replace (Rabs a * Rabs a) with (a * a).
    + unfold Rsqr. field. exact Ha.
    + unfold Rabs. destruct (Rcase_abs a); ring.
Qed.

Lemma raiz_positiva (t : R) : 0 < sqrt (1 + Rsqr t).
Proof. apply sqrt_lt_R0. unfold Rsqr. nra. Qed.

(** The phase is the angle of the point [(x, y)]: away from the origin,
    [x = r cos phi] and [y = r sin phi]. *)
Lemma atan2_polar (y x : pyfloat) :
  valor x <> 0 \/ valor y <> 0 ->
  r x y * cos (atan2 y x) = valor x /\ r x y * sin (atan2 y x) = valor y.
Proof.
  intro Hnz. unfold atan2, r, bit_de_sinal.
  destruct (Req_dec_T (valor y) 0) as [Hy0 | Hy0].
  - assert (Hx0 : valor x <> 0) by (destruct Hnz; [assumption | contradiction]).
    rewrite Hy0.
    replace (valor x ^ 2 + 0 ^ 2) with (Rsqr (valor x)) by (unfold Rsqr; ring).
    rewrite sqrt_Rsqr_abs.
    destruct (Req_dec_T (valor x) 0) as [| _]; [contradiction |].
    destruct (Rlt_dec (valor x) 0) as [Hx | Hx].
    + rewrite Rabs_left by exact Hx.
      destruct (zero_negativo y).
      * rewrite cos_neg, sin_neg, cos_PI, sin_PI. split; ring.
      * rewrite cos_PI, sin_PI. split; ring.
    + rewrite Rabs_right by lra. rewrite cos_0, sin_0. split; ring.
  - destruct (Req_dec_T (valor x) 0) as [Hx0 | Hx0].
    + rewrite Hx0.
      replace (0 ^ 2 + valor y ^ 2) with (Rsqr (valor y)) by (unfold Rsqr; ring).
      rewrite sqrt_Rsqr_abs.
      destruct (Rlt_dec (valor y) 0) as [Hy | Hy].
      * rewrite Rabs_left by exact Hy.
        rewrite cos_neg, sin_neg, cos_PI2, sin_PI2. split; ring.
      * rewrite Rabs_right by lra. rewrite cos_PI2, sin_PI2. split; ring.
    + rewrite (@norma_fatorada (valor x) (valor y) Hx0).
      pose proof (raiz_positiva (valor y / valor x)) as Hs.
      destruct (Rlt_dec 0 (valor x)) as [Hx | Hx].
      * rewrite Rabs_right by lra. rewrite cos_atan, sin_atan.
        split; field; lra.
      * assert (Hxn : valor x < 0) by lra. rewrite Rabs_left by exact Hxn.
        destruct (Rlt_dec (valor y) 0) as [Hy | Hy].
        -- unfold Rminus. rewrite cos_plus, sin_plus, cos_neg, sin_neg, cos_PI, sin_PI.
           rewrite cos_atan, sin_atan. split; field; lra.
        -- rewrite neg_cos, neg_sin, cos_atan, sin_atan. split; field; lra.
Qed.

(** The arctangent of 4/3 lies between 45 and 60 degrees. *)
Lemma atan_4_3 : PI / 4 < atan (4 / 3) < PI / 3.
Proof.
  split.
  - rewrite <- atan_1. apply atan_increasing. lra.
  - assert (H3 : atan (sqrt 3) = PI / 3).
    { rewrite <- tan_PI3. apply atan_tan. assert (Hpi := PI_RGT_0). lra. }
    rewrite <- H3. apply atan_increasing.
    apply Rsqr_incrst_0; [| lra | apply sqrt_pos].
    rewrite Rsqr_sqrt by lra. unfold Rsqr. lra.
Qed.

(** C6 (amended).  For every pair of finite readings: the magnitude is the
    Euclidean norm of [(x, y)], never negative; the phase is
    [atan2(y, x)] in degrees, the angle of the point [(x, y)] (away from
    the origin [x = r cos phi] and [y = r sin phi]), and it lies in the
    closed interval from -180 to 180 degrees.  For [x = 3] and [y = 4] the
    magnitude is 5 and the phase is the arctangent of 4/3 in degrees, an
    angle between 45 and 60 degrees whose tangent is 4/3. *)
Theorem magnitude_e_fase :
  forall x y : pyfloat,
    0 <= r x y /\
    r x y * r x y = valor x ^ 2 + valor y ^ 2 /\
    fase x y = atan2 y x * (180 / PI) /\
    (valor x <> 0 \/ valor y <> 0 ->
     valor x = r x y * cos (atan2 y x) /\ valor y = r x y * sin (atan2 y x)) /\
    -180 <= fase x y <= 180 /\
    (forall zx zy : bool,
        r (PyFloat 3 zx) (PyFloat 4 zy) = 5 /\
        fase (PyFloat 3 zx) (PyFloat 4 zy) = atan (4 / 3) * (180 / PI) /\
        tan (atan2 (PyFloat 4 zy) (PyFloat 3 zx)) = 4 / 3 /\
        45 < fase (PyFloat 3 zx) (PyFloat 4 zy) < 60).
Proof.
  intros x y.
  split; [apply r_nonneg |]. split; [apply r_quadrado |].
  split; [reflexivity |].
  split; [intro Hnz; destruct (@atan2_polar y x Hnz) as [Hc Hs]; split; symmetry; assumption |].
  split; [apply degrees_bounds, atan2_bounds |].
  intros zx zy.
  assert (Hat : atan2 (PyFloat 4 zy) (PyFloat 3 zx) = atan (4 / 3)).
  { unfold atan2. cbn [valor].
    destruct (Req_dec_T 4 0) as [H | _]; [lra |].
    destruct (Req_dec_T 3 0) as [H | _]; [lra |].
    destruct (Rlt_dec 0 3) as [_ | H]; [reflexivity | lra]. }
  split.
  - unfold r. cbn [valor]. replace (3 ^ 2 + 4 ^ 2) with (5 * 5) by ring.
    apply sqrt_square. lra.
  - unfold fase, degrees. rewrite Hat.
    split; [reflexivity |]. split; [apply tan_atan |].
    assert (Hpi := PI_RGT_0).
    destruct atan_4_3 as [Hlo Hhi].
    assert (H180 : 0 < 180 / PI) by (apply Rdiv_lt_0_compat; lra).
    assert (E : PI * (180 / PI) = 180) by (field; lra).
    revert H180 E. generalize (180 / PI). intros k Hk E.
    split; nra.
Qed.

(** C6, counterexample.  For the readings [x = -1.0] and [y = -0.0] the
    phase is exactly -180 degrees, outside the half-open interval. *)
Lemma fase_menos_180 :
  let x := PyFloat (-1) false in
  let y := PyFloat 0 true in
  fase x y = -180 /\ ~ (-180 < fase x y <= 180).
Proof.
  cbv zeta.
  assert (E : fase (PyFloat (-1) false) (PyFloat 0 true) = -180).
  { unfold fase, degrees, atan2, bit_de_sinal. cbn [valor zero_negativo].
    destruct (Req_dec_T 0 0) as [_ | H]; [| lra].
    destruct (Req_dec_T (-1) 0) as [H | _]; [lra |].
    destruct (Rlt_dec (-1) 0) as [_ | H]; [| lra].
    assert (Hpi := PI_RGT_0). field. lra. }
  split; [exact E |]. rewrite E. lra.
Qed.

End DerivacaoFacts.

(** ** The model at work *)

(** C1, counterexample.  On real hardware whose GPIB resource cannot be
    opened, the sweep loads the driver and initialises the monochromator,
    fails in [conectar], and ends without invoking either shutdown. *)
Lemma falha_ao_conectar_nao_fecha_mono :
  let run := Experimento.executar_varredura false Bancada.sem_lockin
               Bancada.math_aprox 400 800 5 (3 # 10) Experimento.__init__ [] in
  events_of run
  = [Call (exp_executar_varredura 400 800 5 (3 # 10));
     Call mono_inicializar; LoadLibrary BenthamMonochromator.dll_path;
     BI_initialise; BI_build_system "system.cfg" 0;
     Call (lockin_conectar SR7265LockIn.endereco_padrao);
     ResourceManager; OpenResource SR7265LockIn.endereco_padrao] /\
  BenthamMonochromator.lib (Experimento.mono (state_of run)) <> None /\
  is_ok (outcome_of run) = false /\
  count is_call_mono_fechar (events_of run) = 0%nat /\
  count is_call_lockin_fechar (events_of run) = 0%nat.
Proof.
  cbv zeta. repeat split; try reflexivity. vm_compute. discriminate.
Qed.

(** C5, counterexample.  A second sweep over two wavelengths on the same
    simulated instance completes normally and leaves four rows; and on
    real hardware whose drive settles 0.1 nm above each request the rows
    of a completed sweep carry 400.1 and 405.1, not 400 and 405. *)
Lemma varredura_repetida_ou_deslocada :
  (let run1 := Experimento.executar_varredura true Bancada.ideal
                 Bancada.math_aprox 400 405 5 (3 # 10) Experimento.__init__ [] in
   let run2 := Experimento.executar_varredura true Bancada.ideal
                 Bancada.math_aprox 400 405 5 (3 # 10)
                 (state_of run1) (events_of run1) in
   outcome_of run2 = Ok tt /\
   py_range 400 (405 + 1) 5 = Ok [400; 405]%Z /\
   map am_wl (Experimento.dados (state_of run2))
   = [400; 405; 400; 405]%Q) /\
  (let run := Experimento.executar_varredura false Bancada.deslocada
                Bancada.math_aprox 400 405 5 (3 # 10) Experimento.__init__ [] in
   outcome_of run = Ok tt /\
   map am_wl (Experimento.dados (state_of run)) = [4001 # 10; 4051 # 10]%Q).
Proof.
  cbv zeta. repeat split; vm_compute; reflexivity.
Qed.

(** Witness for C5: the simulated sweep from 400 to 800 in steps of 5 on
    a fresh instance yields 81 rows, row [i] at wavelength [400 + 5 i]. *)
Lemma uma_amostra_por_comprimento_de_onda_witness :
  let run := Experimento.executar_varredura true Bancada.ideal
               Bancada.math_aprox 400 800 5 (3 # 10) Experimento.__init__ [] in
  List.length (Experimento.dados (state_of run)) = 81%nat /\
  map am_wl (Experimento.dados (state_of run))
  = map (fun i => inject_Z (400 + 5 * Z.of_nat i)) (seq 0 81).
Proof.
  cbv zeta.
  destruct (@uma_amostra_por_comprimento_de_onda true Bancada.ideal
              Bancada.math_aprox 400 800 5 (3 # 10) Experimento.__init__ [])
    as [l [recs [Hr [_ [Hfresh [Hlen Hsim]]]]]].
  - vm_compute. reflexivity.
  - vm_compute in Hr. injection Hr as <-.
    rewrite (Hfresh eq_refl). split.
    + rewrite Hlen. reflexivity.
    + rewrite (Hsim eq_refl). reflexivity.
Defined.

(** Witness for C9: two simulated sweeps over two wavelengths each, on one
    instance, leave four rows. *)
Lemma dados_so_crescem_witness :
  let run1 := Experimento.executar_varredura true Bancada.ideal
                Bancada.math_aprox 400 405 5 (3 # 10) Experimento.__init__ [] in
  let run2 := Experimento.executar_varredura true Bancada.ideal
                Bancada.math_aprox 400 405 5 (3 # 10)
                (state_of run1) ([] ++ events_of run1) in
  List.length (Experimento.dados (state_of run2)) = 4%nat.
Proof.
  cbv zeta.
  destruct (proj2 (proj2 (@dados_so_crescem true Bancada.ideal Bancada.math_aprox))
              400%Z 405%Z 5%Z (3 # 10)%Q 400%Z 405%Z 5%Z (3 # 10)%Q
              Experimento.__init__ [])
    as [l1 [l2 [recs1 [recs2 [Hr1 [Hr2 [Hd [Hlen1 Hlen2]]]]]]]].
  - vm_compute. reflexivity.
  - vm_compute. reflexivity.
  - vm_compute in Hr1, Hr2. injection Hr1 as <-. injection Hr2 as <-.
    rewrite Hd. cbn [Experimento.dados Experimento.__init__ app].
    rewrite length_app, Hlen1, Hlen2. reflexivity.
Defined.

(** Witness for C8: on real hardware whose third read times out, the
    sweep from 400 to 420 in steps of 5 raises in its third step, begins
    no fourth, and keeps the two rows it had. *)
Lemma leitura_falha_interrompe_varredura_witness :
  let run := Experimento.executar_varredura false Bancada.leitura_falha
               Bancada.math_aprox 400 420 5 (3 # 10) Experimento.__init__ [] in
  is_ok (outcome_of run) = false /\
  count is_call_mover_para (events_of run) = 3%nat /\
  map am_wl (Experimento.dados (state_of run)) = [400; 405]%Q.
Proof.
  cbv zeta.
  pose (tau := (3 # 10)%Q).
  pose (ab := Experimento.abertura false Bancada.leitura_falha 400 420 5 tau
                Experimento.__init__ []).
  pose (l1 := for_each [400; 405]%Z
                (Experimento.passo false Bancada.leitura_falha Bancada.math_aprox (tau * 5))
                (state_of ab) ([] ++ events_of ab)).
  pose (p3 := Experimento.passo false Bancada.leitura_falha Bancada.math_aprox (tau * 5)
                410 (state_of l1) (([] ++ events_of ab) ++ events_of l1)).
  destruct (@leitura_falha_interrompe_varredura false Bancada.leitura_falha
              Bancada.math_aprox 400 420 5 tau Experimento.__init__ []
              [400; 405]%Z 410%Z [415; 420]%Z
              (state_of ab) (state_of l1) (state_of p3)
              (events_of ab) (events_of l1) (events_of p3)
              (DriverError (-1073807339)))
    as [Hraise [_ [Hmv [Hd _]]]].
  - vm_compute. reflexivity.
  - vm_compute. reflexivity.
  - vm_compute. reflexivity.
  - vm_compute. reflexivity.
  - vm_compute. reflexivity.
  - split; [exact Hraise | split; [exact Hmv |]].
    unfold tau in Hd. rewrite Hd. vm_compute. reflexivity.
Defined.

(** A simulated step at 650 nm, inside the overload window: the status
    reports overload, the scale is adjusted once, the filter settles
    again, and only then is the sample read. *)
Example passo_simulado_em_650 :
  before_first is_ret_status
    (after_first is_call_verificar_status
       (events_of (Experimento.passo true Bancada.ideal Bancada.math_aprox
                     ((3 # 10) * 5) 650 Experimento.__init__ [])))
  = [] /\
  before_first is_call_ler_XY
    (after_first is_ret_status
       (events_of (Experimento.passo true Bancada.ideal Bancada.math_aprox
                     ((3 # 10) * 5) 650 Experimento.__init__ [])))
  = [Print (msg_saturacao 650); Call lockin_auto_sensitivity;
     Print msg_sim_auto_sensitivity; Sleep reestabilizacao (5 # 100)] /\
  status_reported
    (events_of (Experimento.passo true Bancada.ideal Bancada.math_aprox
                  ((3 # 10) * 5) 650 Experimento.__init__ []))
  = Some true.
Proof. repeat split. Qed.

(** A real step on a saturated lock-in: one [AS] command, one further
    wait of [tau * 5], one read. *)
Example passo_real_saturado :
  events_of (Experimento.passo false Bancada.saturada Bancada.math_aprox
               ((3 # 10) * 5) 500
               {| Experimento.mono :=
                    {| BenthamMonochromator.current_lambda := None;
                       BenthamMonochromator.lib :=
                         Some (BenthamMonochromator.CDLL BenthamMonochromator.dll_path) |};
                  Experimento.lockin :=
                    {| SR7265LockIn.inst :=
                         Some (SR7265LockIn.Resource SR7265LockIn.endereco_padrao);
                       SR7265LockIn.tau := 3 # 10 |};
                  Experimento.dados := [] |} [])
  = [Call (mono_mover_para 500); Call (mono_enviar_comando 500);
     BI_select_wavelength 500;
     Sleep estabilizacao ((3 # 10) * 5);
     Call (lockin_verificar_status 500); Query ST;
     Ret_verificar_status {| overload := true |};
     Print (msg_saturacao 500); Call lockin_auto_sensitivity; Write AS;
     Sleep reestabilizacao ((3 # 10) * 5);
     Call (lockin_ler_XY 500); Query XY;
     Print (msg_leitura 500 (5000000 # 1000000)
              (4 / (3 * 3 + 4 * 4 + 1) * (180 * 113 # 355)))].
Proof. reflexivity. Qed.

(** ** More on the instruments *)

Lemma py_max0_nonneg (x : Q) : (0 <= py_max0 x)%Q.
Proof.
  unfold py_max0. destruct (Qltb 0 x) eqn:E.
  - apply Qltb_lt in E. lra.
  - lra.
Qed.

Lemma py_max0_below (l : Q) : (0 <= l)%Q -> (py_max0 (l - 2) <= l)%Q.
Proof.
  intro Hl. unfold py_max0. destruct (Qltb 0 (l - 2)); lra.
Qed.

Lemma land_16_testbit (n : Z) : negb (Z.land n 16 =? 0)%Z = Z.testbit n 4.
Proof.
  assert (H : Z.land n 16 = if Z.testbit n 4 then 16%Z else 0%Z).
  { apply Z.bits_inj'. intros m Hm.
    rewrite Z.land_spec. change 16%Z with (2 ^ 4)%Z.
    rewrite Z.pow2_bits_eqb by lia.
    destruct (Z.eqb_spec 4 m) as [<- | Hne].
    - destruct (Z.testbit n 4); cbn; reflexivity.
    - rewrite andb_false_r.
      destruct (Z.testbit n 4).
      + rewrite Z.pow2_bits_eqb by lia.
        symmetry. now apply Z.eqb_neq.
      + symmetry. apply Z.bits_0. }
  rewrite H. destruct (Z.testbit n 4); reflexivity.
Qed.

Section InstrumentFacts.
Variable hw : hardware.

(** X1.  [mover_para] records a new position only when it returns, and
    then the very value it returns; a move that raises, even after the
    overshoot command went through, leaves the object as it was.  The
    driver handle is never touched. *)
Theorem mover_para_atualiza_posicao :
  forall (SIMULATE : bool) (lambda_nm : Q) (s : BenthamMonochromator.self)
         (h : history),
    let run := BenthamMonochromator.mover_para SIMULATE hw lambda_nm s h in
    BenthamMonochromator.lib (state_of run) = BenthamMonochromator.lib s /\
    match outcome_of run with
    | Ok wl_real =>
        BenthamMonochromator.current_lambda (state_of run) = Some wl_real
    | Raise _ => state_of run = s
    end.
Proof.
  intros sim lambda_nm [cl lb] h. cbv zeta.
  destruct sim; run_model; case_answers; split; reflexivity.
Qed.

(** X2.  On real hardware, for a target that is not negative, every
    wavelength [mover_para] sends to the drive lies between 0 and the
    target: the overshoot position is never negative and never above the
    target, so the final approach is never a descent. *)
Theorem mover_para_comandos_limitados :
  forall (lambda_nm : Q) (s : BenthamMonochromator.self) (h : history),
    (0 <= lambda_nm)%Q ->
    Forall (fun w => (0 <= w)%Q /\ (w <= lambda_nm)%Q)
      (comandos (events_of (BenthamMonochromator.mover_para false hw lambda_nm s h))).
Proof.
  intros lambda_nm [cl lb] h Hl.
  pose proof (py_max0_nonneg (lambda_nm - 2)) as H0.
  pose proof (py_max0_below Hl) as H1.
  unfold BenthamMonochromator.OVERSHOOT.
  run_model; unfold BenthamMonochromator.OVERSHOOT; case_answers;
    repeat constructor; auto; lra.
Qed.

(** X3.  On real hardware, when the driver loads and [BI_initialise]
    returns a non-zero code, [inicializar] raises [RuntimeError] without
    calling [BI_build_system], and leaves the loaded driver in [lib]. *)
Theorem inicializar_falha_rapido :
  forall (s : BenthamMonochromator.self) (h : history) (rc : Z),
    hw_LoadLibrary hw
      (h ++ [Call mono_inicializar; LoadLibrary BenthamMonochromator.dll_path])
    = Ok tt ->
    hw_BI_initialise hw
      (h ++ [Call mono_inicializar; LoadLibrary BenthamMonochromator.dll_path;
             BI_initialise])
    = Ok rc ->
    rc <> 0%Z ->
    BenthamMonochromator.inicializar false hw s h
    = (Raise (RuntimeError "Erro grave de Hardware no TMc300."),
       {| BenthamMonochromator.current_lambda := BenthamMonochromator.current_lambda s;
          BenthamMonochromator.lib :=
            Some (BenthamMonochromator.CDLL BenthamMonochromator.dll_path) |},
       [Call mono_inicializar; LoadLibrary BenthamMonochromator.dll_path;
        BI_initialise]).
Proof.
  intros [cl lb] h rc Hload Hinit Hrc.
  run_model. cbn. norm_hist. rewrite Hload. cbn. norm_hist. rewrite Hinit. cbn.
  destruct (Z.eqb_spec rc 0) as [-> | _]; [congruence | reflexivity].
Qed.

(** X4.  [conectar] stores the session in [inst] as soon as the resource
    is opened: when the identification query is reached, [inst] holds
    the opened resource whether the query succeeds or raises; when it is
    not reached, the object is unchanged.  The time constant is never
    touched. *)
Theorem conectar_guarda_sessao :
  forall (SIMULATE : bool) (endereco : string) (s : SR7265LockIn.self) (h : history),
    let run := SR7265LockIn.conectar SIMULATE hw endereco s h in
    SR7265LockIn.tau (state_of run) = SR7265LockIn.tau s /\
    (if existsb (fun e => match e with Query IDN => true | _ => false end)
          (events_of run)
     then SR7265LockIn.inst (state_of run) = Some (SR7265LockIn.Resource endereco)
     else state_of run = s) /\
    (SIMULATE = false -> is_ok (outcome_of run) = true ->
     exists idn,
       events_of run
       = [Call (lockin_conectar endereco); ResourceManager; OpenResource endereco;
          SetReadTermination; Query IDN; Print (msg_hardware_encontrado idn)]).
Proof.
  intros sim endereco [ins ta] h. cbv zeta.
  destruct sim; run_model; case_answers;
    (split; [reflexivity | split; [reflexivity |]]); intros; try discriminate.
  eexists. reflexivity.
Qed.

(** X5.  [configurar_experimento] stores the time constant before it
    talks to the instrument, so [tau] is updated even when it raises, and
    [inst] is never touched.  On real hardware the commands it writes are
    an initial part of CP 0, FLOAT 1, FET 1, TC tau, in this order, and
    all four when it returns; in the simulated configuration it writes
    nothing. *)
Theorem configurar_experimento_efeitos :
  forall (SIMULATE : bool) (tau : Q) (s : SR7265LockIn.self) (h : history),
    let run := SR7265LockIn.configurar_experimento SIMULATE hw tau s h in
    SR7265LockIn.tau (state_of run) = tau /\
    SR7265LockIn.inst (state_of run) = SR7265LockIn.inst s /\
    (exists n : nat,
        escritas (events_of run) = firstn n [CP_0; FLOAT_1; FET_1; TC tau] /\
        (SIMULATE = true -> n = 0%nat) /\
        (SIMULATE = false -> is_ok (outcome_of run) = true -> n = 4%nat)).
Proof.
  intros sim tau [ins ta] h. cbv zeta.
  destruct sim; run_model; case_answers;
    (split; [reflexivity | split; [reflexivity |]]);
    first [ exists 4%nat; repeat split; intros; discriminate
          | exists 3%nat; repeat split; intros; discriminate
          | exists 2%nat; repeat split; intros; discriminate
          | exists 1%nat; repeat split; intros; discriminate
          | exists 0%nat; repeat split; intros; discriminate ].
Qed.

(** X6.  On real hardware with a connected lock-in, the overload flag
    returned by [verificar_status] is bit 4 of the status word the
    instrument answers, whatever the other bits and the sign. *)
Theorem verificar_status_bit_4 :
  forall (wl : Q) (s : SR7265LockIn.self) (h : history)
         (r : SR7265LockIn.resource) (n : Z),
    SR7265LockIn.inst s = Some r ->
    hw_query_ST hw (h ++ [Call (lockin_verificar_status wl); Query ST]) = Ok n ->
    SR7265LockIn.verificar_status false hw wl s h
    = (Ok {| overload := Z.testbit n 4 |}, s,
       [Call (lockin_verificar_status wl); Query ST;
        Ret_verificar_status {| overload := Z.testbit n 4 |}]).
Proof.
  intros wl [ins ta] h r n Hinst Hst. cbn in Hinst. subst ins.
  run_model. cbn. norm_hist. rewrite Hst. cbn. rewrite land_16_testbit.
  reflexivity.
Qed.

(** X7.  Neither [fechar] changes its object, in either configuration and
    whether it returns or raises: after shutdown [lib] and [inst] still
    hold the handles they held before. *)
Theorem fechar_mantem_objeto :
  forall (SIMULATE : bool) (h : history),
    (forall s : BenthamMonochromator.self,
        state_of (BenthamMonochromator.fechar SIMULATE hw s h) = s) /\
    (forall s : SR7265LockIn.self,
        state_of (SR7265LockIn.fechar SIMULATE hw s h) = s).
Proof.
  intros sim h. split; intros [a b]; destruct sim; run_model; case_answers;
    reflexivity.
Qed.

End InstrumentFacts.

(** Witness for X2: with the drive at 5, a move to 1 goes through 0. *)
Lemma mover_para_comandos_limitados_witness :
  Forall (fun w => (0 <= w)%Q /\ (w <= 1)%Q)
    (comandos
       (events_of
          (BenthamMonochromator.mover_para false Bancada.ideal 1
             {| BenthamMonochromator.current_lambda := Some 5%Q;
                BenthamMonochromator.lib :=
                  Some (BenthamMonochromator.CDLL BenthamMonochromator.dll_path) |}
             []))) /\
  comandos
    (events_of
       (BenthamMonochromator.mover_para false Bancada.ideal 1
          {| BenthamMonochromator.current_lambda := Some 5%Q;
             BenthamMonochromator.lib :=
               Some (BenthamMonochromator.CDLL BenthamMonochromator.dll_path) |}
          []))
  = [0; 1]%Q.
Proof.
  split.
  - apply (@mover_para_comandos_limitados Bancada.ideal). discriminate.
  - reflexivity.
Defined.

(** Witness for X3: a driver whose [BI_initialise] answers 1. *)
Lemma inicializar_falha_rapido_witness :
  BenthamMonochromator.inicializar false Bancada.sem_tmc300
    BenthamMonochromator.__init__ []
  = (Raise (RuntimeError "Erro grave de Hardware no TMc300."),
     {| BenthamMonochromator.current_lambda := None;
        BenthamMonochromator.lib :=
          Some (BenthamMonochromator.CDLL BenthamMonochromator.dll_path) |},
     [Call mono_inicializar; LoadLibrary BenthamMonochromator.dll_path;
      BI_initialise]).
Proof.
  apply (@inicializar_falha_rapido Bancada.sem_tmc300
           BenthamMonochromator.__init__ [] 1%Z);
    [reflexivity | reflexivity | discriminate].
Defined.

(** Witness for X6: the status word 16 reports overload. *)
Lemma verificar_status_bit_4_witness :
  outcome_of
    (SR7265LockIn.verificar_status false Bancada.saturada 650
       {| SR7265LockIn.inst :=
            Some (SR7265LockIn.Resource SR7265LockIn.endereco_padrao);
          SR7265LockIn.tau := 3 # 10 |} [])
  = Ok {| overload := true |}.
Proof.
  rewrite (@verificar_status_bit_4 Bancada.saturada 650
             {| SR7265LockIn.inst :=
                  Some (SR7265LockIn.Resource SR7265LockIn.endereco_padrao);
                SR7265LockIn.tau := 3 # 10 |} []
             (SR7265LockIn.Resource SR7265LockIn.endereco_padrao) 16
             eq_refl eq_refl).
  reflexivity.
Defined.

(** ** More on the sweep: the simulated configuration *)

Section SimFacts.
Variable hw : hardware.
Variable math : pymath.

Lemma abertura_simulada :
  forall (start end_ step : Z) (tau : Q) (s : Experimento.self) (h : history),
    let ab := Experimento.abertura true hw start end_ step tau s h in
    outcome_of ab = Ok tt /\
    count is_call_auto_sensitivity (events_of ab) = 0%nat.
Proof.
  intros start end_ step tau [[cl lb] [ins ta] dd] h. split; reflexivity.
Qed.

Lemma finalizacao_simulada :
  forall (s : Experimento.self) (h : history),
    Experimento.finalizacao true hw s h
    = (Ok tt, s, [Call mono_fechar; Call lockin_fechar;
                  Print msg_aquisicao_finalizada]).
Proof.
  intros [[cl lb] [ins ta] dd] h. reflexivity.
Qed.

End SimFacts.

Lemma py_range_nonzero (start stop step : Z) :
  step <> 0%Z ->
  py_range start stop step
  = Ok (map (fun i => (start + Z.of_nat i * step)%Z)
          (seq 0 (Z.to_nat (range_len start stop step)))).
Proof.
  intro Hs. unfold py_range. destruct (Z.eqb_spec step 0); [contradiction | reflexivity].
Qed.

(** X10.  A sweep with step 0 reaches the loop only to have [range] raise:
    it never moves the monochromator and leaves the dataset untouched, yet
    it has set the instruments up and still shuts them down.  In the
    simulated configuration the exception that comes out is the
    [ValueError] of [range], after both shutdowns. *)
Theorem passo_zero_levanta :
  forall (SIMULATE : bool) (hw : hardware) (math : pymath) (start end_ : Z) (tau : Q)
         (s : Experimento.self) (h : history),
    let ab := Experimento.abertura SIMULATE hw start end_ 0 tau s h in
    let run := Experimento.executar_varredura SIMULATE hw math start end_ 0 tau s h in
    is_ok (outcome_of run) = false /\
    Experimento.dados (state_of run) = Experimento.dados s /\
    count is_call_mover_para (events_of run) = 0%nat /\
    (is_ok (outcome_of ab) = true ->
     count is_call_mono_fechar (events_of run) = 1%nat) /\
    (SIMULATE = true ->
     outcome_of run = Raise ValueError /\
     count is_call_lockin_fechar (events_of run) = 1%nat).
Proof.
  intros sim hw math start end_ tau s h. cbv zeta.
  rewrite executar_varredura_eq.
  pose proof (abertura_efeitos sim hw start end_ 0 tau s h) as Ha.
  pose proof (abertura_simulada hw start end_ 0 tau s h) as Hs.
  cbv zeta in Ha, Hs.
  destruct (Experimento.abertura sim hw start end_ 0 tau s h) as [[r0 s0] ev0] eqn:Eab.
  unfold outcome_of, state_of, events_of in *. cbn [fst snd] in *.
  destruct Ha as [Hd0 [Hm0 [Hl0 Hv0]]].
  destruct r0 as [[] | e0].
  - change (Experimento.laco sim hw math (tau * 5) start end_ 0 s0 (h ++ ev0))
      with (@raise Experimento.self unit ValueError s0 (h ++ ev0)).
    unfold raise.
    pose proof (finalizacao_efeitos sim hw s0 ((h ++ ev0) ++ [])) as Hf.
    pose proof (finalizacao_simulada hw s0 ((h ++ ev0) ++ [])) as Hfs.
    cbv zeta in Hf.
    destruct (Experimento.finalizacao sim hw s0 ((h ++ ev0) ++ [])) as [[rf sf] evf] eqn:Ef.
    unfold outcome_of, state_of, events_of in *. cbn [fst snd] in *.
    destruct Hf as [Hdf [Hmf [Hlf Hvf]]].
    assert (Hsim : sim = true ->
                   rf = Ok tt /\ count is_call_lockin_fechar evf = 1%nat).
    { intros ->. rewrite Hfs in Ef. injection Ef as <- _ <-. split; reflexivity. }
    assert (Hcommon :
      Experimento.dados sf = Experimento.dados s /\
      count is_call_mover_para (ev0 ++ evf) = 0%nat /\
      count is_call_mono_fechar (ev0 ++ evf) = 1%nat).
    { rewrite !count_app, Hv0, Hvf, Hm0, Hmf. repeat split; congruence. }
    destruct Hcommon as [Hc1 [Hc2 Hc3]].
    destruct rf as [[] | ef]; cbn [fst snd is_ok app].
    + split; [reflexivity |]. split; [exact Hc1 |]. split; [exact Hc2 |].
      split; [intros _; exact Hc3 |].
      intros Hs'. destruct (Hsim Hs') as [_ Hcnt].
      split; [reflexivity |]. rewrite count_app, Hl0, Hcnt. reflexivity.
    + split; [reflexivity |]. split; [exact Hc1 |]. split; [exact Hc2 |].
      split; [intros _; exact Hc3 |].
      intros Hs'. destruct (Hsim Hs') as [Hrf _]. discriminate.
  - cbn [is_ok fst snd].
    split; [reflexivity |]. split; [exact Hd0 |]. split; [exact Hv0 |].
    split; [discriminate |].
    intros ->. rewrite Eab in Hs. cbn in Hs. destruct Hs; discriminate.
Qed.

(** ** More on the sweep: both configurations *)

Lemma range_len_pos (start end_ step : Z) :
  (0 < step)%Z ->
  range_len start (end_ + 1) step = Z.max 0 ((end_ - start) / step + 1).
Proof.
  intro Hs. unfold range_len.
  destruct (Z.ltb_spec 0 step); [| lia].
  replace (end_ + 1 - start - 1)%Z with (end_ - start)%Z by lia.
  destruct (Z.ltb_spec start (end_ + 1)).
  - assert (0 <= (end_ - start) / step)%Z by (apply Z.div_pos; lia). lia.
  - assert ((end_ - start) / step < 0)%Z by (apply Z.div_lt_upper_bound; lia). lia.
Qed.

Lemma range_In_pos (start end_ step x : Z) :
  (0 < step)%Z ->
  In x (map (fun i => (start + Z.of_nat i * step)%Z)
          (seq 0 (Z.to_nat (range_len start (end_ + 1) step)))) <->
  (start <= x <= end_)%Z /\ ((x - start) mod step = 0)%Z.
Proof.
  intro Hs. rewrite range_len_pos by exact Hs.
  rewrite in_map_iff. split.
  - intros [i [<- Hi]]. apply in_seq in Hi.
    assert (Hn : (Z.of_nat i < Z.max 0 ((end_ - start) / step + 1))%Z) by lia.
    assert (Hq : (Z.of_nat i <= (end_ - start) / step)%Z) by lia.
    assert (Hm : (step * ((end_ - start) / step) <= end_ - start)%Z).
    { apply Z.mul_div_le. exact Hs. }
    split; [nia |].
    replace (start + Z.of_nat i * step - start)%Z with (Z.of_nat i * step)%Z by lia.
    apply Z_mod_mult.
  - intros [[Hlo Hhi] Hmod].
    assert (Hx : (x - start = step * ((x - start) / step))%Z).
    { apply Z.div_exact; lia. }
    assert (Hq0 : (0 <= (x - start) / step)%Z) by (apply Z.div_pos; lia).
    assert (Hq1 : ((x - start) / step <= (end_ - start) / step)%Z).
    { apply Z.div_le_mono; lia. }
    exists (Z.to_nat ((x - start) / step)). split.
    + rewrite Z2Nat.id by exact Hq0. lia.
    + apply in_seq. lia.
Qed.

Lemma movimentos_app (a b : list event) :
  movimentos (a ++ b) = movimentos a ++ movimentos b.
Proof.
  induction a as [|e a IH]; [reflexivity |].
  destruct e as [[] | | | | | | | | | | | | | | | | | |]; cbn; now rewrite IH.
Qed.

Section ContagemFacts.
Variable SIMULATE : bool.
Variable hw : hardware.
Variable math : pymath.

(** The calls of one step: it is begun by the one [mover_para], for the
    requested wavelength; the status is queried at most once, and only
    then may the sample be read; a step that returns did all three. *)
Lemma passo_contagens :
  forall (tempo_espera : Q) (wl : Z) (s : Experimento.self) (h : history),
    let run := Experimento.passo SIMULATE hw math tempo_espera wl s h in
    movimentos (events_of run) = [inject_Z wl] /\
    (count is_call_verificar_status (events_of run) <= 1)%nat /\
    (count is_call_ler_XY (events_of run)
     <= count is_call_verificar_status (events_of run))%nat /\
    (is_ok (outcome_of run) = true ->
     count is_call_verificar_status (events_of run) = 1%nat).
Proof.
  intros te wl [[cl lb] [ins ta] dd] h. cbv zeta.
  destruct SIMULATE; run_model; case_answers; cbn;
    repeat split; try reflexivity; try discriminate; lia.
Qed.

Lemma abertura_contagens :
  forall (start end_ step : Z) (tau : Q) (s : Experimento.self) (h : history),
    let ab := Experimento.abertura SIMULATE hw start end_ step tau s h in
    movimentos (events_of ab) = [] /\
    count is_call_verificar_status (events_of ab) = 0%nat /\
    count is_call_ler_XY (events_of ab) = 0%nat /\
    BenthamMonochromator.current_lambda (Experimento.mono (state_of ab))
    = BenthamMonochromator.current_lambda (Experimento.mono s).
Proof.
  intros start end_ step tau [[cl lb] [ins ta] dd] h. cbv zeta.
  destruct SIMULATE; run_model; case_answers; cbn; repeat split.
Qed.

Lemma finalizacao_contagens :
  forall (s : Experimento.self) (h : history),
    let fim := Experimento.finalizacao SIMULATE hw s h in
    movimentos (events_of fim) = [] /\
    count is_call_verificar_status (events_of fim) = 0%nat /\
    count is_call_ler_XY (events_of fim) = 0%nat /\
    count (is_sleep_at pausa_backlash) (events_of fim) = 0%nat.
Proof.
  intros [[cl lb] [ins ta] dd] h. cbv zeta.
  destruct SIMULATE; run_model; case_answers; cbn; repeat split.
Qed.

Lemma laco_contagens :
  forall (tempo_espera : Q) (l : list Z) (s : Experimento.self) (h : history),
    let run := for_each l (Experimento.passo SIMULATE hw math tempo_espera) s h in
    let ev := events_of run in
    exists recs,
      Experimento.dados (state_of run) = Experimento.dados s ++ recs /\
      (List.length recs <= count is_call_ler_XY ev)%nat /\
      (count is_call_ler_XY ev <= count is_call_verificar_status ev)%nat /\
      (count is_call_verificar_status ev <= count is_call_mover_para ev)%nat /\
      (count is_call_mover_para ev <= List.length recs + 1)%nat /\
      movimentos ev = map inject_Z (firstn (count is_call_mover_para ev) l) /\
      (is_ok (outcome_of run) = true -> movimentos ev = map inject_Z l).
Proof.
  intros te l. induction l as [|wl l IH]; intros s h; cbv zeta.
  - exists []. cbn. rewrite app_nil_r. repeat split; auto; lia.
  - rewrite for_each_cons.
    pose proof (passo_dados SIMULATE hw math te wl s h) as Hd.
    pose proof (passo_chamadas SIMULATE hw math te wl s h) as Hc.
    pose proof (passo_contagens te wl s h) as Hn.
    cbv zeta in Hd, Hc, Hn.
    destruct (Experimento.passo SIMULATE hw math te wl s h) as [[[[] | e] s1] ev1];
      unfold outcome_of, state_of, events_of in Hd, Hc, Hn;
      cbn [fst snd is_ok] in Hd, Hc, Hn;
      destruct Hc as [Hmv [_ [_ [Hler1 Hler]]]];
      destruct Hn as [Hmo [Hst [Hls Hst1]]].
    + destruct Hd as [a [Ha _]].
      specialize (Hler1 eq_refl). specialize (Hst1 eq_refl).
      specialize (IH s1 (h ++ ev1)). cbv zeta in IH.
      destruct (for_each l _ s1 (h ++ ev1)) as [[r2 s2] ev2].
      unfold outcome_of, state_of, events_of in *. cbn [fst snd] in *.
      destruct IH as [recs [Hrecs [H1 [H2 [H3 [H4 [H5 H6]]]]]]].
      exists (a :: recs).
      rewrite !count_app, movimentos_app, Hmv, Hler1, Hst1, Hmo, Hrecs, Ha,
        <- app_assoc.
      cbn [List.length app firstn map Nat.add].
      repeat split; try lia.
      * now rewrite H5.
      * intro Hok. now rewrite (H6 Hok).
    + exists []. unfold outcome_of, state_of, events_of.
      cbn [fst snd List.length is_ok]. rewrite app_nil_r, Hmv, Hmo.
      cbn [firstn map]. repeat split; auto; try lia; discriminate.
Qed.

Lemma executar_varredura_contagens :
  forall (start end_ step : Z) (tau : Q) (s : Experimento.self) (h : history),
    let run := Experimento.executar_varredura SIMULATE hw math start end_ step tau s h in
    let ev := events_of run in
    exists recs,
      Experimento.dados (state_of run) = Experimento.dados s ++ recs /\
      (List.length recs <= count is_call_ler_XY ev)%nat /\
      (count is_call_ler_XY ev <= count is_call_verificar_status ev)%nat /\
      (count is_call_verificar_status ev <= count is_call_mover_para ev)%nat /\
      (count is_call_mover_para ev <= List.length recs + 1)%nat /\
      (is_ok (outcome_of run) = true ->
       exists l, py_range start (end_ + 1) step = Ok l /\
                 movimentos ev = map inject_Z l).
Proof.
  intros start end_ step tau s h. cbv zeta. rewrite executar_varredura_eq.
  pose proof (abertura_efeitos SIMULATE hw start end_ step tau s h) as Ha.
  pose proof (abertura_contagens start end_ step tau s h) as Hb.
  cbv zeta in Ha, Hb.
  destruct (Experimento.abertura _ _ _ _ _ _ _ _) as [[[[] | e] s0] ev0];
    unfold outcome_of, state_of, events_of in *; cbn [fst snd] in *;
    destruct Ha as [Hd0 [_ [_ Hmv0]]]; destruct Hb as [Hmo0 [Hst0 [Hle0 _]]].
  - assert (Hlaco :
      let run := Experimento.laco SIMULATE hw math (tau * 5) start end_ step s0 (h ++ ev0) in
      exists recs,
        Experimento.dados (snd (fst run)) = Experimento.dados s0 ++ recs /\
        (List.length recs <= count is_call_ler_XY (snd run))%nat /\
        (count is_call_ler_XY (snd run)
         <= count is_call_verificar_status (snd run))%nat /\
        (count is_call_verificar_status (snd run)
         <= count is_call_mover_para (snd run))%nat /\
        (count is_call_mover_para (snd run) <= List.length recs + 1)%nat /\
        (is_ok (fst (fst run)) = true ->
         exists l, py_range start (end_ + 1) step = Ok l /\
                   movimentos (snd run) = map inject_Z l)).
    { cbv zeta. unfold Experimento.laco.
      destruct (py_range start (end_ + 1) step) as [l | e].
      - destruct (laco_contagens (tau * 5) l s0 (h ++ ev0))
          as [recs [H0 [H1 [H2 [H3 [H4 [_ H6]]]]]]].
        exists recs. unfold outcome_of, state_of, events_of in *.
        repeat split; auto. intro Hok. exists l. auto.
      - exists []. cbn. rewrite app_nil_r. repeat split; auto; discriminate. }
    cbv zeta in Hlaco.
    destruct (Experimento.laco _ _ _ _ _ _ _ _ _) as [[r s1] ev1].
    cbn [fst snd] in Hlaco.
    destruct Hlaco as [recs [Hd1 [H1 [H2 [H3 [H4 H5]]]]]].
    pose proof (finalizacao_efeitos SIMULATE hw s1 ((h ++ ev0) ++ ev1)) as Hf.
    pose proof (finalizacao_contagens s1 ((h ++ ev0) ++ ev1)) as Hg.
    cbv zeta in Hf, Hg.
    destruct (Experimento.finalizacao _ _ _ _) as [[rf s2] ev2].
    unfold outcome_of, state_of, events_of in *; cbn [fst snd] in *.
    destruct Hf as [Hd2 [_ [_ Hmv2]]]. destruct Hg as [Hmo2 [Hst2 [Hle2 _]]].
    exists recs.
    assert (Hcounts :
      Experimento.dados s2 = Experimento.dados s ++ recs /\
      (List.length recs <= count is_call_ler_XY (ev0 ++ ev1 ++ ev2))%nat /\
      (count is_call_ler_XY (ev0 ++ ev1 ++ ev2)
       <= count is_call_verificar_status (ev0 ++ ev1 ++ ev2))%nat /\
      (count is_call_verificar_status (ev0 ++ ev1 ++ ev2)
       <= count is_call_mover_para (ev0 ++ ev1 ++ ev2))%nat /\
      (count is_call_mover_para (ev0 ++ ev1 ++ ev2) <= List.length recs + 1)%nat /\
      movimentos (ev0 ++ ev1 ++ ev2) = movimentos ev1).
    { rewrite !count_app, !movimentos_app, Hmo0, Hmo2, Hst0, Hst2, Hle0, Hle2,
        Hmv0, Hmv2, app_nil_r.
      repeat split; try lia. congruence. }
    destruct Hcounts as [C0 [C1 [C2 [C3 [C4 C5]]]]].
    destruct rf as [[] | ef]; cbn [fst snd is_ok];
      repeat split; auto; try discriminate.
    intro Hok. destruct (H5 Hok) as [l [Hr Hm]]. exists l. split; congruence.
  - exists []. rewrite app_nil_r, Hmv0, Hst0, Hle0. cbn [List.length is_ok].
    repeat split; auto; try lia; try discriminate.
Qed.

(** X11.  Over a whole sweep, however it ends: the rows appended are no
    more than the reads invoked, the reads no more than the status
    queries, the status queries no more than the moves, and the moves at
    most one more than the rows.  So the lock-in is never queried or read
    for a wavelength the monochromator was not first sent to, and at most
    one step, the last, is left without its row. *)
Theorem ordem_das_chamadas :
  forall (start end_ step : Z) (tau : Q) (s : Experimento.self) (h : history),
    let run := Experimento.executar_varredura SIMULATE hw math start end_ step tau s h in
    let ev := events_of run in
    exists recs,
      Experimento.dados (state_of run) = Experimento.dados s ++ recs /\
      (List.length recs <= count is_call_ler_XY ev)%nat /\
      (count is_call_ler_XY ev <= count is_call_verificar_status ev)%nat /\
      (count is_call_verificar_status ev <= count is_call_mover_para ev)%nat /\
      (count is_call_mover_para ev <= List.length recs + 1)%nat.
Proof.
  intros start end_ step tau s h. cbv zeta.
  destruct (executar_varredura_contagens start end_ step tau s h)
    as [recs [H0 [H1 [H2 [H3 [H4 _]]]]]].
  exists recs. auto.
Qed.

(** X12.  A sweep with a positive step that completes, in either
    configuration, has sent the monochromator to exactly the wavelengths
    [start + i * step] that do not exceed [end], once each and in this
    order: [x] is visited if and only if [start <= x <= end] and [step]
    divides [x - start].  So [end] itself is visited only when the step
    divides [end - start], and nothing is visited when [end < start]. *)
Theorem comprimentos_de_onda_visitados :
  forall (start end_ step : Z) (tau : Q) (s : Experimento.self) (h : history),
    (0 < step)%Z ->
    let run := Experimento.executar_varredura SIMULATE hw math start end_ step tau s h in
    outcome_of run = Ok tt ->
    exists l,
      movimentos (events_of run) = map inject_Z l /\
      l = map (fun i => (start + Z.of_nat i * step)%Z)
            (seq 0 (Z.to_nat ((end_ - start) / step + 1))) /\
      (forall x : Z,
          In x l <-> (start <= x <= end_)%Z /\ ((x - start) mod step = 0)%Z).
Proof.
  intros start end_ step tau s h Hstep run Hok.
  destruct (executar_varredura_contagens start end_ step tau s h)
    as [recs [_ [_ [_ [_ [_ Hmov]]]]]].
  fold run in Hmov. rewrite Hok in Hmov.
  destruct (Hmov eq_refl) as [l [Hr Hm]].
  rewrite py_range_nonzero in Hr by lia. injection Hr as <-.
  eexists. split; [exact Hm |]. split.
  - rewrite range_len_pos by exact Hstep.
    f_equal. f_equal. lia.
  - intro x. apply range_In_pos. exact Hstep.
Qed.

End ContagemFacts.

(** Witness for X12: on an ideal real bench, from 400 to 420 in steps of
    7, the monochromator is sent to 400, 407 and 414, and not to 420. *)
Lemma comprimentos_de_onda_visitados_witness :
  movimentos
    (events_of (Experimento.executar_varredura false Bancada.ideal Bancada.math_aprox
                  400 420 7 (3 # 10) Experimento.__init__ []))
  = [400; 407; 414]%Q.
Proof.
  destruct (@comprimentos_de_onda_visitados false Bancada.ideal Bancada.math_aprox
              400 420 7 (3 # 10) Experimento.__init__ [])
    as [l [Hm [Hl _]]].
  - reflexivity.
  - vm_compute. reflexivity.
  - rewrite Hm, Hl. reflexivity.
Defined.

(** ** More on the sweep: an increasing sweep on an exact drive *)

Lemma comandos_app (a b : list event) :
  comandos (a ++ b) = comandos a ++ comandos b.
Proof.
  induction a as [|e a IH]; [reflexivity |].
  destruct e; cbn; now rewrite IH.
Qed.

Lemma ideal_exato : acionamento_exato Bancada.ideal.
Proof.
  intros h wl. cbn. unfold Bancada.last_event.
  rewrite map_app. cbn [map]. now rewrite last_last.
Qed.

(** As [case_answers], but the drive's answers are those of an exact
    drive. *)
Ltac case_answers_exato H :=
  repeat (cbn -[Qltb]; try rewrite !H;
          match goal with
          | |- context [match ?x with _ => _ end] =>
              lazymatch x with
              | context [match _ with _ => _ end] => fail
              | _ => destruct x
              end
          end).

Section ExatoFacts.
Variable SIMULATE : bool.
Variable hw : hardware.
Variable math : pymath.
Hypothesis Hexato : acionamento_exato hw.

Lemma passo_sem_backlash :
  forall (tempo_espera : Q) (wl : Z) (s : Experimento.self) (h : history),
    nao_acima s wl ->
    let run := Experimento.passo SIMULATE hw math tempo_espera wl s h in
    count (is_sleep_at pausa_backlash) (events_of run) = 0%nat /\
    (is_ok (outcome_of run) = true ->
     BenthamMonochromator.current_lambda (Experimento.mono (state_of run))
     = Some (inject_Z wl) /\
     comandos (events_of run) = if SIMULATE then [] else [inject_Z wl]).
Proof.
  intros te wl [[cl lb] [ins ta] dd] h Hcur. cbv zeta.
  destruct SIMULATE.
  - run_model; case_answers; cbn; repeat split; intros; discriminate.
  - destruct Hcur as [Hnone | [c [Hc Hle]]]; cbn in *; subst cl.
    + run_model. case_answers_exato Hexato;
        cbn; repeat split; intros; discriminate.
    + apply Qltb_ge in Hle.
      run_model. cbn -[Qltb]. rewrite Hle. case_answers_exato Hexato;
        cbn; repeat split; intros; discriminate.
Qed.

Lemma abertura_sem_comandos :
  forall (start end_ step : Z) (tau : Q) (s : Experimento.self) (h : history),
    let ab := Experimento.abertura SIMULATE hw start end_ step tau s h in
    count (is_sleep_at pausa_backlash) (events_of ab) = 0%nat /\
    comandos (events_of ab) = [].
Proof.
  intros start end_ step tau [[cl lb] [ins ta] dd] h. cbv zeta.
  destruct SIMULATE; run_model; case_answers; cbn; repeat split.
Qed.

Lemma finalizacao_sem_comandos :
  forall (s : Experimento.self) (h : history),
    comandos (events_of (Experimento.finalizacao SIMULATE hw s h)) = [].
Proof.
  intros [[cl lb] [ins ta] dd] h.
  destruct SIMULATE; run_model; case_answers; reflexivity.
Qed.

Lemma laco_sem_backlash :
  forall (tempo_espera : Q) (start step : Z),
    (0 < step)%Z ->
    forall (n k : nat) (s : Experimento.self) (h : history),
      nao_acima s (start + Z.of_nat k * step) ->
      let l := map (fun i => (start + Z.of_nat i * step)%Z) (seq k n) in
      let run := for_each l (Experimento.passo SIMULATE hw math tempo_espera) s h in
      count (is_sleep_at pausa_backlash) (events_of run) = 0%nat /\
      (is_ok (outcome_of run) = true ->
       comandos (events_of run) = if SIMULATE then [] else map inject_Z l).
Proof.
  intros te start step Hstep n.
  induction n as [|n IH]; intros k s h Hcur; cbv zeta.
  - cbn. split; [reflexivity |]. intros _. now destruct SIMULATE.
  - cbn [seq map]. rewrite for_each_cons.
    destruct (passo_sem_backlash te h Hcur) as [Hb Hok].
    destruct (Experimento.passo SIMULATE hw math te _ s h) as [[[[] | e] s1] ev1];
      unfold outcome_of, state_of, events_of in Hb, Hok; cbn [fst snd is_ok] in Hb, Hok.
    + destruct (Hok eq_refl) as [Hcur1 Hcmd].
      assert (Hnext : nao_acima s1 (start + Z.of_nat (S k) * step)).
      { right. eexists. split; [exact Hcur1 |].
        rewrite <- Zle_Qle. lia. }
      destruct (IH (S k) s1 (h ++ ev1) Hnext) as [Hb2 Hok2].
      destruct (for_each _ _ s1 (h ++ ev1)) as [[r2 s2] ev2].
      unfold outcome_of, state_of, events_of in *. cbn [fst snd] in *.
      rewrite count_app, comandos_app, Hb, Hb2, Hcmd.
      split; [reflexivity |].
      intro Hr. rewrite (Hok2 Hr). now destruct SIMULATE.
    + unfold outcome_of, events_of. cbn [fst snd is_ok].
      split; [exact Hb | discriminate].
Qed.

(** X13.  On a drive that reaches exactly the wavelength it is sent to, a
    sweep with a positive step that starts with the monochromator unset,
    or at or below [start], never triggers the backlash compensation:
    there is no backlash pause, and a real-hardware sweep that completes
    has sent the drive exactly the wavelengths of its range, in order and
    with no overshoot position among them. *)
Theorem varredura_crescente_sem_backlash :
  forall (start end_ step : Z) (tau : Q) (s : Experimento.self) (h : history),
    (0 < step)%Z ->
    nao_acima s start ->
    let run := Experimento.executar_varredura SIMULATE hw math start end_ step tau s h in
    count (is_sleep_at pausa_backlash) (events_of run) = 0%nat /\
    (SIMULATE = false -> is_ok (outcome_of run) = true ->
     exists l, py_range start (end_ + 1) step = Ok l /\
               comandos (events_of run) = map inject_Z l).
Proof.
  intros start end_ step tau s h Hstep Hcur. cbv zeta.
  rewrite executar_varredura_eq.
  pose proof (abertura_sem_comandos start end_ step tau s h) as Ha.
  pose proof (abertura_contagens SIMULATE hw start end_ step tau s h) as Hb.
  cbv zeta in Ha, Hb.
  destruct (Experimento.abertura _ _ _ _ _ _ _ _) as [[[[] | e] s0] ev0];
    unfold outcome_of, state_of, events_of in *; cbn [fst snd is_ok] in *;
    destruct Ha as [Hb0 Hc0]; destruct Hb as [_ [_ [_ Hcl0]]];
    [| split; [exact Hb0 | discriminate]].
  assert (Hcur0 : nao_acima s0 (start + Z.of_nat 0 * step)).
  { replace (start + Z.of_nat 0 * step)%Z with start by lia.
    unfold nao_acima in *. now rewrite Hcl0. }
  unfold Experimento.laco. rewrite py_range_nonzero by lia.
  destruct (laco_sem_backlash (tau * 5) start Hstep
              (Z.to_nat (range_len start (end_ + 1) step)) 0 (h ++ ev0) Hcur0)
    as [Hb1 Hc1].
  destruct (for_each _ _ s0 (h ++ ev0)) as [[r1 s1] ev1].
  pose proof (finalizacao_contagens SIMULATE hw s1 ((h ++ ev0) ++ ev1)) as Hf.
  pose proof (finalizacao_sem_comandos s1 ((h ++ ev0) ++ ev1)) as Hg.
  cbv zeta in Hf.
  destruct (Experimento.finalizacao _ _ _ _) as [[rf s2] ev2].
  unfold outcome_of, state_of, events_of in *; cbn [fst snd] in *.
  destruct Hf as [_ [_ [_ Hb2]]].
  assert (Hcount : count (is_sleep_at pausa_backlash) (ev0 ++ ev1 ++ ev2) = 0%nat).
  { rewrite !count_app, Hb0, Hb1, Hb2. reflexivity. }
  destruct rf as [[] | ef]; cbn [fst snd is_ok]; (split; [exact Hcount |]);
    [| discriminate].
  intros Hreal Hok. eexists. split; [reflexivity |].
  rewrite !comandos_app, Hc0, Hg, app_nil_r. cbn [app].
  rewrite (Hc1 Hok), Hreal. reflexivity.
Qed.

End ExatoFacts.

(** Witness for X13: the real sweep of the script on an ideal bench. *)
Lemma varredura_crescente_sem_backlash_witness :
  let run := Experimento.executar_varredura false Bancada.ideal Bancada.math_aprox
               400 420 5 (3 # 10) Experimento.__init__ [] in
  count (is_sleep_at pausa_backlash) (events_of run) = 0%nat /\
  comandos (events_of run) = [400; 405; 410; 415; 420]%Q.
Proof.
  cbv zeta.
  destruct (@varredura_crescente_sem_backlash false Bancada.ideal Bancada.math_aprox
              ideal_exato 400 420 5 (3 # 10) Experimento.__init__ [])
    as [Hb Hc].
  - reflexivity.
  - left. reflexivity.
  - split; [exact Hb |].
    destruct (Hc eq_refl) as [l [Hr Hl]].
    + vm_compute. reflexivity.
    + vm_compute in Hr. injection Hr as <-. rewrite Hl. reflexivity.
Defined.

(** ** The sweep followed by the save *)

Lemma csv_gravados_app (a b : list event) :
  csv_gravados (a ++ b) = csv_gravados a ++ csv_gravados b.
Proof.
  induction a as [|e a IH]; [reflexivity |].
  destruct e; cbn; now rewrite IH.
Qed.

Section SalvarFacts.
Variable SIMULATE : bool.
Variable hw : hardware.
Variable math : pymath.

Lemma passo_sem_csv :
  forall (tempo_espera : Q) (wl : Z) (s : Experimento.self) (h : history),
    csv_gravados (events_of (Experimento.passo SIMULATE hw math tempo_espera wl s h))
    = [].
Proof.
  intros te wl [[cl lb] [ins ta] dd] h.
  destruct SIMULATE; run_model; case_answers; reflexivity.
Qed.

Lemma laco_sem_csv :
  forall (tempo_espera : Q) (l : list Z) (s : Experimento.self) (h : history),
    csv_gravados
      (events_of (for_each l (Experimento.passo SIMULATE hw math tempo_espera) s h))
    = [].
Proof.
  intros te l. induction l as [|wl l IH]; intros s h; [reflexivity |].
  rewrite for_each_cons.
  pose proof (passo_sem_csv te wl s h) as Hp.
  destruct (Experimento.passo SIMULATE hw math te wl s h) as [[[[] | e] s1] ev1];
    unfold events_of in Hp; cbn [snd] in Hp; [| exact Hp].
  specialize (IH s1 (h ++ ev1)).
  destruct (for_each l _ s1 (h ++ ev1)) as [[r2 s2] ev2].
  unfold events_of in *. cbn [snd] in *.
  now rewrite csv_gravados_app, Hp, IH.
Qed.

Lemma executar_varredura_sem_csv :
  forall (start end_ step : Z) (tau : Q) (s : Experimento.self) (h : history),
    csv_gravados
      (events_of (Experimento.executar_varredura SIMULATE hw math
                    start end_ step tau s h))
    = [].
Proof.
  intros start end_ step tau s h. rewrite executar_varredura_eq.
  assert (Ha : csv_gravados
                 (events_of (Experimento.abertura SIMULATE hw start end_ step tau s h))
               = []).
  { destruct s as [[cl lb] [ins ta] dd].
    destruct SIMULATE; run_model; case_answers; reflexivity. }
  destruct (Experimento.abertura _ _ _ _ _ _ _ _) as [[[[] | e] s0] ev0];
    unfold events_of in *; cbn [snd] in *; [| exact Ha].
  assert (Hl : csv_gravados
                 (events_of (Experimento.laco SIMULATE hw math (tau * 5)
                               start end_ step s0 (h ++ ev0))) = []).
  { unfold Experimento.laco.
    destruct (py_range start (end_ + 1) step); [apply laco_sem_csv | reflexivity]. }
  destruct (Experimento.laco _ _ _ _ _ _ _ _ _) as [[r s1] ev1].
  assert (Hf : csv_gravados
                 (events_of (Experimento.finalizacao SIMULATE hw s1 ((h ++ ev0) ++ ev1)))
               = []).
  { destruct s1 as [[cl lb] [ins ta] dd].
    destruct SIMULATE; run_model; case_answers; reflexivity. }
  destruct (Experimento.finalizacao _ _ _ _) as [[rf s2] ev2].
  unfold events_of in *. cbn [snd] in *.
  destruct rf as [[] | ef]; cbn [snd];
    now rewrite !csv_gravados_app, Ha, Hl, Hf.
Qed.

(** X14.  A program that runs a sweep and then [salvar_e_plotar], as the
    script does, writes the CSV file exactly when the sweep returned, and
    then once, with the whole dataset of the controller.  When the sweep
    raises, the exception leaves the program before the save: nothing is
    written, not even the rows already collected. *)
Theorem salvar_apos_varredura :
  forall (start end_ step : Z) (tau : Q) (s : Experimento.self) (h : history),
    let varr := Experimento.executar_varredura SIMULATE hw math start end_ step tau s h in
    let prog := (Experimento.executar_varredura SIMULATE hw math start end_ step tau ;;
                 Experimento.salvar_e_plotar) s h in
    csv_gravados (events_of prog)
    = (if is_ok (outcome_of varr) then [Experimento.dados (state_of varr)] else []) /\
    outcome_of prog = outcome_of varr /\
    state_of prog = state_of varr.
Proof.
  intros start end_ step tau s h varr prog.
  pose proof (executar_varredura_sem_csv start end_ step tau s h) as Hcsv.
  fold varr in Hcsv.
  assert (Hprog :
    prog = match varr with
           | (Ok _, s1, ev1) =>
               match Experimento.salvar_e_plotar s1 (h ++ ev1) with
               | (r, s2, ev2) => (r, s2, ev1 ++ ev2)
               end
           | (Raise e, s1, ev1) => (Raise e, s1, ev1)
           end) by reflexivity.
  rewrite Hprog. clear Hprog prog.
  destruct varr as [[[[] | e] s1] ev1];
    unfold outcome_of, state_of, events_of in *; cbn [fst snd is_ok] in *.
  - unfold Experimento.salvar_e_plotar, bind, emit, gets. cbn.
    rewrite csv_gravados_app, Hcsv. repeat split.
  - rewrite Hcsv. repeat split.
Qed.

End SalvarFacts.

(** ** More on the sweep: a negative step *)

Lemma range_len_neg (start end_ step : Z) :
  (step < 0)%Z ->
  range_len start (end_ + 1) step = Z.max 0 ((start - end_ - 2) / (- step) + 1).
Proof.
  intro Hs. unfold range_len.
  destruct (Z.ltb_spec 0 step); [lia |].
  replace (start - (end_ + 1) - 1)%Z with (start - end_ - 2)%Z by lia.
  destruct (Z.ltb_spec (end_ + 1) start).
  - assert (0 <= (start - end_ - 2) / (- step))%Z by (apply Z.div_pos; lia). lia.
  - assert ((start - end_ - 2) / (- step) < 0)%Z
      by (apply Z.div_lt_upper_bound; lia).
    lia.
Qed.

Lemma range_In_neg (start end_ step x : Z) :
  (step < 0)%Z ->
  In x (map (fun i => (start + Z.of_nat i * step)%Z)
          (seq 0 (Z.to_nat (range_len start (end_ + 1) step)))) <->
  (end_ + 1 < x <= start)%Z /\ ((start - x) mod (- step) = 0)%Z.
Proof.
  intro Hs. rewrite range_len_neg by exact Hs.
  rewrite in_map_iff. split.
  - intros [i [<- Hi]]. apply in_seq in Hi.
    assert (Hq : (Z.of_nat i <= (start - end_ - 2) / (- step))%Z) by lia.
    assert (Hm : ((- step) * ((start - end_ - 2) / (- step)) <= start - end_ - 2)%Z).
    { apply Z.mul_div_le. lia. }
    split; [nia |].
    replace (start - (start + Z.of_nat i * step))%Z with (Z.of_nat i * (- step))%Z by lia.
    apply Z_mod_mult.
  - intros [[Hlo Hhi] Hmod].
    assert (Hx : (start - x = (- step) * ((start - x) / (- step)))%Z).
    { apply Z.div_exact; lia. }
    assert (Hq0 : (0 <= (start - x) / (- step))%Z) by (apply Z.div_pos; lia).
    assert (Hq1 : ((start - x) / (- step) <= (start - end_ - 2) / (- step))%Z).
    { apply Z.div_le_mono; lia. }
    exists (Z.to_nat ((start - x) / (- step))). split.
    + rewrite Z2Nat.id by exact Hq0. lia.
    + apply in_seq. lia.
Qed.

(** X15.  A sweep with a negative step that completes, in either
    configuration, runs downwards from [start] and stops above
    [end + 1]: [x] is visited if and only if [end + 1 < x <= start] and
    the step divides [start - x].  So a descending sweep never visits
    [end] itself, nor [end + 1]. *)
Theorem varredura_decrescente_exclui_end :
  forall (SIMULATE : bool) (hw : hardware) (math : pymath)
         (start end_ step : Z) (tau : Q) (s : Experimento.self) (h : history),
    (step < 0)%Z ->
    let run := Experimento.executar_varredura SIMULATE hw math start end_ step tau s h in
    outcome_of run = Ok tt ->
    exists l,
      movimentos (events_of run) = map inject_Z l /\
      l = map (fun i => (start + Z.of_nat i * step)%Z)
            (seq 0 (Z.to_nat ((start - end_ - 2) / (- step) + 1))) /\
      (forall x : Z,
          In x l <->
          (end_ + 1 < x <= start)%Z /\ ((start - x) mod (- step) = 0)%Z) /\
      ~ In end_ l /\ ~ In (end_ + 1)%Z l.
Proof.
  intros sim hw math start end_ step tau s h Hstep run Hok.
  destruct (executar_varredura_contagens sim hw math start end_ step tau s h)
    as [recs [_ [_ [_ [_ [_ Hmov]]]]]].
  fold run in Hmov. rewrite Hok in Hmov.
  destruct (Hmov eq_refl) as [l [Hr Hm]].
  rewrite py_range_nonzero in Hr by lia. injection Hr as <-.
  eexists. split; [exact Hm |].
  assert (Hin : forall x : Z,
             In x (map (fun i => (start + Z.of_nat i * step)%Z)
                     (seq 0 (Z.to_nat (range_len start (end_ + 1) step)))) <->
             (end_ + 1 < x <= start)%Z /\ ((start - x) mod (- step) = 0)%Z).
  { intro x. apply range_In_neg. exact Hstep. }
  split; [rewrite range_len_neg by exact Hstep; f_equal; f_equal; lia |].
  split; [exact Hin |].
  split; intro Habs; apply Hin in Habs; lia.
Qed.

(** Witness for X15: the simulated sweep from 800 down towards 790 in
    steps of -5 visits 800 and 795 only. *)
Lemma varredura_decrescente_exclui_end_witness :
  movimentos
    (events_of (Experimento.executar_varredura true Bancada.ideal Bancada.math_aprox
                  800 790 (-5) (3 # 10) Experimento.__init__ []))
  = [800; 795]%Q.
Proof.
  destruct (@varredura_decrescente_exclui_end true Bancada.ideal Bancada.math_aprox
              800 790 (-5) (3 # 10) Experimento.__init__ [])
    as [l [Hm [Hl _]]].
  - reflexivity.
  - vm_compute. reflexivity.
  - rewrite Hm, Hl. reflexivity.
Defined.

Section DecrescenteFacts.
Variable hw : hardware.
Variable math : pymath.
Hypothesis Hexato : acionamento_exato hw.

(** On real hardware with an exact drive, a step below the position held
    goes through the overshoot position and the pause. *)
Lemma passo_com_backlash :
  forall (tempo_espera : Q) (wl : Z) (s : Experimento.self) (h : history) (c : Q),
    BenthamMonochromator.current_lambda (Experimento.mono s) = Some c ->
    (inject_Z wl < c)%Q ->
    let run := Experimento.passo false hw math tempo_espera wl s h in
    is_ok (outcome_of run) = true ->
    count (is_sleep_at pausa_backlash) (events_of run) = 1%nat /\
    comandos (events_of run) = [py_max0 (inject_Z wl - 2); inject_Z wl] /\
    BenthamMonochromator.current_lambda (Experimento.mono (state_of run))
    = Some (inject_Z wl).
Proof.
  intros te wl [[cl lb] [ins ta] dd] h c Hc Hlt. cbn in Hc. subst cl.
  apply Qltb_lt in Hlt. cbv zeta.
  run_model. unfold BenthamMonochromator.OVERSHOOT.
  cbn -[Qltb py_max0]. rewrite Hlt.
  repeat (cbn -[Qltb py_max0]; try rewrite !Hexato;
          match goal with
          | |- context [match ?x with _ => _ end] =>
              lazymatch x with
              | context [match _ with _ => _ end] => fail
              | _ => destruct x
              end
          end);
    cbn -[Qltb py_max0]; intros; try discriminate; repeat split.
Qed.

Lemma laco_com_backlash :
  forall (tempo_espera : Q) (start step : Z),
    (step < 0)%Z ->
    forall (n k : nat) (s : Experimento.self) (h : history) (c : Q),
      BenthamMonochromator.current_lambda (Experimento.mono s) = Some c ->
      (inject_Z (start + Z.of_nat k * step) < c)%Q ->
      let l := map (fun i => (start + Z.of_nat i * step)%Z) (seq k n) in
      let run := for_each l (Experimento.passo false hw math tempo_espera) s h in
      is_ok (outcome_of run) = true ->
      count (is_sleep_at pausa_backlash) (events_of run) = n /\
      List.length (comandos (events_of run)) = (2 * n)%nat.
Proof.
  intros te start step Hstep n.
  induction n as [|n IH]; intros k s h c Hc Hlt; cbv zeta.
  - intros _. split; reflexivity.
  - cbn [seq map]. rewrite for_each_cons.
    pose proof (@passo_com_backlash te (start + Z.of_nat k * step) s h c Hc Hlt) as Hp.
    cbv zeta in Hp.
    destruct (Experimento.passo false hw math te _ s h) as [[[[] | e] s1] ev1];
      unfold outcome_of, state_of, events_of in Hp; cbn [fst snd is_ok] in Hp;
      [| intro Habs; discriminate Habs].
    destruct (Hp eq_refl) as [Hb [Hcmd Hcur]].
    assert (Hnext : (inject_Z (start + Z.of_nat (S k) * step)
                     < inject_Z (start + Z.of_nat k * step))%Q).
    { rewrite <- Zlt_Qlt. lia. }
    specialize (IH (S k) s1 (h ++ ev1) _ Hcur Hnext). cbv zeta in IH.
    destruct (for_each _ _ s1 (h ++ ev1)) as [[r2 s2] ev2].
    unfold outcome_of, state_of, events_of in *. cbn [fst snd] in *.
    intro Hok. destruct (IH Hok) as [Hb2 Hc2].
    rewrite count_app, comandos_app, length_app, Hb, Hb2, Hcmd, Hc2.
    cbn [List.length]. split; lia.
Qed.

(** X16.  On real hardware with an exact drive and the monochromator
    unset at the start, a sweep with a negative step that completes
    compensates the backlash at every move but the first: the backlash
    pauses are one fewer than the moves, and the drive receives two
    commands for every move but the first. *)
Theorem varredura_decrescente_compensa :
  forall (start end_ step : Z) (tau : Q) (s : Experimento.self) (h : history),
    (step < 0)%Z ->
    BenthamMonochromator.current_lambda (Experimento.mono s) = None ->
    let run := Experimento.executar_varredura false hw math start end_ step tau s h in
    is_ok (outcome_of run) = true ->
    count (is_sleep_at pausa_backlash) (events_of run)
    = (count is_call_mover_para (events_of run) - 1)%nat /\
    List.length (comandos (events_of run))
    = (2 * count is_call_mover_para (events_of run) - 1)%nat.
Proof.
  intros start end_ step tau s h Hstep Hnone run Hok.
  destruct (executar_varredura_dados false hw math start end_ step tau s h)
    as [recs [_ Hout]].
  fold run in Hout.
  destruct (outcome_of run) as [[] | e] eqn:Eout; [| discriminate].
  destruct Hout as [l [Hr [_ [_ Hmv]]]].
  rewrite py_range_nonzero in Hr by lia. injection Hr as <-.
  rewrite Hmv, length_map, length_seq. clear Hmv recs.
  unfold run in *. clear run. rewrite executar_varredura_eq in *.
  pose proof (abertura_sem_comandos false hw start end_ step tau s h) as Ha.
  pose proof (abertura_contagens false hw start end_ step tau s h) as Hb.
  cbv zeta in Ha, Hb.
  destruct (Experimento.abertura _ _ _ _ _ _ _ _) as [[[[] | e] s0] ev0];
    unfold outcome_of, state_of, events_of in *; cbn [fst snd is_ok] in *;
    [| discriminate].
  destruct Ha as [Hb0 Hc0]. destruct Hb as [_ [_ [_ Hcl0]]].
  rewrite Hnone in Hcl0.
  unfold Experimento.laco in *. rewrite py_range_nonzero in * by lia.
  set (n := Z.to_nat (range_len start (end_ + 1) step)) in *.
  assert (Hloop :
    let run := for_each
                 (map (fun i => (start + Z.of_nat i * step)%Z) (seq 0 n))
                 (Experimento.passo false hw math (tau * 5)) s0 (h ++ ev0) in
    is_ok (fst (fst run)) = true ->
    count (is_sleep_at pausa_backlash) (snd run) = (n - 1)%nat /\
    List.length (comandos (snd run)) = (2 * n - 1)%nat).
  { cbv zeta. destruct n as [|n]; [intros _; split; reflexivity |].
    cbn [seq map]. rewrite for_each_cons.
    assert (Hna : nao_acima s0 (start + Z.of_nat 0 * step)) by now left.
    pose proof (@passo_sem_backlash false hw math Hexato (tau * 5)
                  (start + Z.of_nat 0 * step) s0 (h ++ ev0) Hna) as Hp.
    cbv zeta in Hp.
    destruct (Experimento.passo false hw math _ _ s0 (h ++ ev0))
      as [[[[] | e] s1] ev1];
      unfold outcome_of, state_of, events_of in Hp; cbn [fst snd is_ok] in Hp;
      [| intro Habs; discriminate Habs].
    destruct Hp as [Hb1 Hp]. destruct (Hp eq_refl) as [Hcur1 Hcmd1].
    assert (Hnext : (inject_Z (start + Z.of_nat 1 * step)
                     < inject_Z (start + Z.of_nat 0 * step))%Q).
    { rewrite <- Zlt_Qlt. lia. }
    pose proof (@laco_com_backlash (tau * 5) start step Hstep n 1 s1
                  ((h ++ ev0) ++ ev1) _ Hcur1 Hnext) as Hl.
    cbv zeta in Hl.
    destruct (for_each _ _ s1 ((h ++ ev0) ++ ev1)) as [[r2 s2] ev2].
    unfold outcome_of, events_of in Hl. cbn [fst snd] in *.
    intro Hr. destruct (Hl Hr) as [Hb2 Hc2].
    rewrite count_app, comandos_app, length_app, Hb1, Hb2, Hcmd1, Hc2.
    cbn [List.length]. split; lia. }
  cbv zeta in Hloop.
  destruct (for_each _ _ s0 (h ++ ev0)) as [[r1 s1] ev1].
  cbn [fst snd] in Hloop.
  pose proof (finalizacao_contagens false hw s1 ((h ++ ev0) ++ ev1)) as Hf.
  pose proof (finalizacao_sem_comandos false hw s1 ((h ++ ev0) ++ ev1)) as Hg.
  cbv zeta in Hf.
  destruct (Experimento.finalizacao _ _ _ _) as [[rf s2] ev2].
  unfold outcome_of, state_of, events_of in *; cbn [fst snd] in *.
  destruct Hf as [_ [_ [_ Hb2]]].
  destruct rf as [[] | ef]; cbn [fst snd is_ok] in *; [| discriminate].
  subst r1. destruct (Hloop eq_refl) as [Hbl Hcl].
  rewrite !count_app, !comandos_app, !length_app, Hb0, Hbl, Hb2, Hc0, Hcl, Hg.
  cbn [List.length]. split; lia.
Qed.

End DecrescenteFacts.

(** Witness for X16: an ideal real bench swept from 800 down in steps of
    -5 towards 780: four moves, three of them compensated. *)
Lemma varredura_decrescente_compensa_witness :
  let run := Experimento.executar_varredura false Bancada.ideal Bancada.math_aprox
               800 780 (-5) (3 # 10) Experimento.__init__ [] in
  count (is_sleep_at pausa_backlash) (events_of run) = 3%nat /\
  comandos (events_of run) = [800; 793; 795; 788; 790; 783; 785]%Q.
Proof.
  cbv zeta.
  destruct (@varredura_decrescente_compensa Bancada.ideal Bancada.math_aprox
              ideal_exato 800 780 (-5) (3 # 10) Experimento.__init__ [])
    as [Hb _].
  - reflexivity.
  - reflexivity.
  - vm_compute. reflexivity.
  - split; [rewrite Hb; vm_compute; reflexivity | vm_compute; reflexivity].
Defined.

(** ** More on the simulated sweep: the overflow of the simulated read *)

Lemma nao_estoura_aux (L wl c : Z) (k : positive) :
  (0 < L)%Z -> ((wl - c) ^ 2 < Zpos k * L)%Z ->
  let q := (- ((inject_Z wl - inject_Z c) ^ 2) / inject_Z (Zpos k))%Q in
  Qle_bool (inject_Z L) q || Qle_bool q (- inject_Z L) = false.
Proof.
  intros HL Hb q.
  apply orb_false_iff. split.
  - destruct (Qle_bool (inject_Z L) q) eqn:E; [|reflexivity].
    apply Qle_bool_iff in E. exfalso. subst q.
    unfold Qle, Qdiv, Qmult, Qinv, Qopp, Qminus, Qplus, Qpower, Qpower_positive, inject_Z in E.
    cbn in E. nia.
  - destruct (Qle_bool q (- inject_Z L)) eqn:E; [|reflexivity].
    apply Qle_bool_iff in E. exfalso. subst q.
    unfold Qle, Qdiv, Qmult, Qinv, Qopp, Qminus, Qplus, Qpower, Qpower_positive, inject_Z in E.
    cbn in E. nia.
Qed.

(** Wavelengths up to [10^150] in magnitude are read without overflow. *)
Lemma leitura_sem_estouro (wl : Z) :
  (Z.abs wl <= 10 ^ 150)%Z -> leitura_simulada_estoura wl = false.
Proof.
  intro Hwl. unfold leitura_simulada_estoura, estoura_double, limite_double.
  assert (HL : (0 < 2 ^ 1024 - 2 ^ 970)%Z) by (apply Z.ltb_lt; vm_compute; reflexivity).
  assert (H1 : ((10 ^ 150 + 500) ^ 2 < 200 * (2 ^ 1024 - 2 ^ 970))%Z)
    by (apply Z.ltb_lt; vm_compute; reflexivity).
  assert (H2 : ((10 ^ 150 + 650) ^ 2 < 100 * (2 ^ 1024 - 2 ^ 970))%Z)
    by (apply Z.ltb_lt; vm_compute; reflexivity).
  assert (HB : (0 <= 10 ^ 150)%Z) by (apply Z.pow_nonneg; lia).
  revert HL H1 H2 HB Hwl.
  generalize (2 ^ 1024 - 2 ^ 970)%Z (10 ^ 150)%Z. intros L B HL H1 H2 HB Hwl.
  apply orb_false_iff. split.
  - apply (@nao_estoura_aux L wl 500 200 HL). nia.
  - apply (@nao_estoura_aux L wl 650 100 HL). nia.
Qed.

Section SimPassos.
Variable hw : hardware.
Variable math : pymath.

(** A simulated step raises exactly when its read overflows; it adjusts
    the scale exactly when its wavelength lies strictly between 640 and
    660. *)
Lemma passo_simulado :
  forall (tempo_espera : Q) (wl : Z) (s : Experimento.self) (h : history),
    let run := Experimento.passo true hw math tempo_espera wl s h in
    outcome_of run
    = (if leitura_simulada_estoura wl then Raise OverflowError else Ok tt) /\
    count is_call_mover_para (events_of run) = 1%nat /\
    forall atual : option Q,
      ajustes_em atual (events_of run)
      = if na_janela_de_saturacao wl then [Some (inject_Z wl)] else [].
Proof.
  intros te wl [[cl lb] [ins ta] dd] h. cbv zeta.
  unfold leitura_simulada_estoura.
  run_model. unfold lift, py_truediv. cbn -[Qltb]. rewrite janela_simulada.
  destruct (na_janela_de_saturacao wl); cbn;
    destruct (estoura_double _); cbn; try destruct (estoura_double _); cbn;
    repeat split; reflexivity.
Qed.
End SimPassos.

Lemma ajustes_em_app (a b : list event) :
  (forall st st' : option Q, ajustes_em st b = ajustes_em st' b) ->
  forall st : option Q,
    ajustes_em st (a ++ b) = ajustes_em st a ++ ajustes_em st b.
Proof.
  intros Hb. induction a as [|e a IH]; intros st; [reflexivity |].
  destruct e as [[] | | | | | | | | | | | | | | | | | |]; cbn [app ajustes_em];
    rewrite ?IH; try reflexivity.
  - f_equal. apply Hb.
Qed.

Lemma ajustes_em_count (l : list event) :
  forall st : option Q,
    List.length (ajustes_em st l) = count is_call_auto_sensitivity l.
Proof.
  induction l as [|e l IH]; intros st; [reflexivity |].
  destruct e as [[] | | | | | | | | | | | | | | | | | |]; cbn; rewrite ?IH; reflexivity.
Qed.

Section SimVarredura.
Variable hw : hardware.
Variable math : pymath.

Lemma laco_simulado :
  forall (tempo_espera : Q) (l : list Z) (s : Experimento.self) (h : history),
    let run := for_each l (Experimento.passo true hw math tempo_espera) s h in
    outcome_of run
    = (if existsb leitura_simulada_estoura l then Raise OverflowError else Ok tt) /\
    (count is_call_mover_para (events_of run) <= List.length l)%nat /\
    (is_ok (outcome_of run) = true ->
     count is_call_mover_para (events_of run) = List.length l) /\
    forall atual : option Q,
      ajustes_em atual (events_of run)
      = map (fun wl => Some (inject_Z wl))
          (filter na_janela_de_saturacao
             (firstn (count is_call_mover_para (events_of run)) l)).
Proof.
  intros te l. induction l as [|wl l IH]; intros s h; cbv zeta.
  - cbn. repeat split; auto.
  - rewrite for_each_cons.
    destruct (passo_simulado hw math te wl s h) as [Hout [Hmv Haj]].
    destruct (Experimento.passo true hw math te wl s h) as [[r1 s1] ev1].
    unfold outcome_of, events_of in Hout, Hmv, Haj. cbn [fst snd] in Hout, Hmv, Haj.
    cbn [existsb].
    destruct (leitura_simulada_estoura wl); subst r1.
    + unfold outcome_of, events_of. cbn [fst snd orb is_ok].
      rewrite Hmv. cbn [firstn filter List.length].
      split; [reflexivity |]. split; [lia |]. split; [discriminate |].
      intros atual. rewrite Haj.
      destruct (na_janela_de_saturacao wl); reflexivity.
    + destruct (IH s1 (h ++ ev1)) as [Hout2 [Hle2 [Hmv2 Haj2]]].
      destruct (for_each l _ s1 (h ++ ev1)) as [[r2 s2] ev2].
      unfold outcome_of, events_of in *. cbn [fst snd orb] in *.
      rewrite count_app, Hmv. cbn [Nat.add firstn filter List.length].
      split; [exact Hout2 |]. split; [lia |].
      split; [intro Hok; rewrite (Hmv2 Hok); reflexivity |].
      intros atual. rewrite ajustes_em_app.
      * rewrite Haj, Haj2.
        destruct (na_janela_de_saturacao wl); reflexivity.
      * intros st st'. rewrite !Haj2. reflexivity.
Qed.

Lemma abertura_simulada_ajustes :
  forall (start end_ step : Z) (tau : Q) (s : Experimento.self) (h : history)
         (atual : option Q),
    ajustes_em atual (events_of (Experimento.abertura true hw start end_ step tau s h))
    = [].
Proof.
  intros start end_ step tau [[cl lb] [ins ta] dd] h atual. reflexivity.
Qed.

Lemma varredura_simulada :
  forall (start end_ step : Z) (tau : Q) (s : Experimento.self) (h : history)
         (l : list Z),
    py_range start (end_ + 1) step = Ok l ->
    let run := Experimento.executar_varredura true hw math start end_ step tau s h in
    let feitos := firstn (count is_call_mover_para (events_of run)) l in
    outcome_of run
    = (if existsb leitura_simulada_estoura l then Raise OverflowError else Ok tt) /\
    count is_call_mono_fechar (events_of run) = 1%nat /\
    count is_call_lockin_fechar (events_of run) = 1%nat /\
    ajustes_em None (events_of run)
    = map (fun wl => Some (inject_Z wl)) (filter na_janela_de_saturacao feitos) /\
    (is_ok (outcome_of run) = true -> feitos = l).
Proof.
  intros start end_ step tau s h l Hr. cbv zeta.
  rewrite executar_varredura_eq.
  destruct (abertura_simulada hw start end_ step tau s h) as [Hok0 _].
  pose proof (abertura_efeitos true hw start end_ step tau s h) as He0.
  pose proof (abertura_simulada_ajustes start end_ step tau s h) as Hj0.
  cbv zeta in He0.
  destruct (Experimento.abertura true hw start end_ step tau s h) as [[r0 s0] ev0].
  unfold outcome_of, state_of, events_of in *. cbn [fst snd] in *. subst r0.
  destruct He0 as [_ [Hm0 [Hl0 Hv0]]].
  unfold Experimento.laco. rewrite Hr.
  destruct (laco_simulado (tau * 5) l s0 (h ++ ev0)) as [Hout1 [Hle1 [Hmv1 Haj1]]].
  destruct (laco_dados true hw math (tau * 5) l s0 (h ++ ev0))
    as [recs [_ [Hm1 [Hl1 _]]]].
  destruct (for_each l _ s0 (h ++ ev0)) as [[r1 s1] ev1].
  unfold outcome_of, state_of, events_of in *. cbn [fst snd] in *.
  rewrite finalizacao_simulada. cbn [fst snd].
  rewrite !count_app, Hm0, Hm1, Hl0, Hl1, Hv0.
  change (count is_call_mover_para
            [Call mono_fechar; Call lockin_fechar; Print msg_aquisicao_finalizada])
    with 0%nat.
  rewrite Nat.add_0_r. cbn [Nat.add].
  split; [exact Hout1 |]. split; [reflexivity |]. split; [reflexivity |].
  split.
  - rewrite ajustes_em_app.
    + rewrite Hj0. cbn [app]. rewrite ajustes_em_app.
      * rewrite Haj1. cbn. rewrite app_nil_r. reflexivity.
      * intros st st'. reflexivity.
    + intros st st'. rewrite !ajustes_em_app by (intros; reflexivity).
      rewrite !Haj1. reflexivity.
  - intro Hok. rewrite (Hmv1 Hok). apply firstn_all.
Qed.

End SimVarredura.

(** The wavelengths of a range lie between its bounds. *)
Lemma range_limitado (start end_ step x : Z) (l : list Z) :
  py_range start (end_ + 1) step = Ok l -> In x l ->
  (Z.abs x <= Z.max (Z.abs start) (Z.abs end_))%Z.
Proof.
  intros Hr Hin. unfold py_range in Hr.
  destruct (Z.eqb_spec step 0) as [|Hs]; [discriminate |].
  injection Hr as <-.
  destruct (Z.lt_total step 0) as [Hneg | [H0 | Hpos]]; [| contradiction |].
  - apply range_In_neg in Hin; [lia | exact Hneg].
  - apply range_In_pos in Hin; [lia | exact Hpos].
Qed.

(** X8.  A simulated sweep with a non-zero step raises only when a read
    overflows: its outcome is [OverflowError] when some wavelength of the
    range makes the simulated read overflow, and a normal return
    otherwise, whatever the time constant, the noise and the state of the
    controller.  Either way each shutdown is invoked exactly once.  When
    [start] and [end] are at most [10^150] in magnitude no read overflows:
    the sweep returns and has appended one row per wavelength of the
    range. *)
Theorem varredura_simulada_completa_sem_estouro :
  forall (hw : hardware) (math : pymath) (start end_ step : Z) (tau : Q)
         (s : Experimento.self) (h : history) (l : list Z),
    py_range start (end_ + 1) step = Ok l ->
    let run := Experimento.executar_varredura true hw math start end_ step tau s h in
    outcome_of run
    = (if existsb leitura_simulada_estoura l then Raise OverflowError else Ok tt) /\
    count is_call_mono_fechar (events_of run) = 1%nat /\
    count is_call_lockin_fechar (events_of run) = 1%nat /\
    ((Z.abs start <= 10 ^ 150)%Z -> (Z.abs end_ <= 10 ^ 150)%Z ->
     outcome_of run = Ok tt /\
     List.length (Experimento.dados (state_of run))
     = (List.length (Experimento.dados s) + List.length l)%nat).
Proof.
  intros hw math start end_ step tau s h l Hr run.
  destruct (varredura_simulada hw math start end_ step tau s h Hr)
    as [Hout [Hm [Hl _]]].
  fold run in Hout, Hm, Hl.
  split; [exact Hout |]. split; [exact Hm |]. split; [exact Hl |].
  intros Hs He.
  assert (Hno : existsb leitura_simulada_estoura l = false).
  { destruct (existsb leitura_simulada_estoura l) eqn:E; [| reflexivity].
    apply existsb_exists in E. destruct E as [x [Hin Hx]].
    pose proof (range_limitado _ _ _ _ Hr Hin) as Hb.
    rewrite leitura_sem_estouro in Hx; [discriminate | lia]. }
  rewrite Hno in Hout. split; [exact Hout |].
  destruct (executar_varredura_dados true hw math start end_ step tau s h)
    as [recs [Hd Hrest]].
  fold run in Hd, Hrest. rewrite Hout in Hrest.
  destruct Hrest as [l' [Hr' [Hlen _]]].
  rewrite Hr in Hr'. injection Hr' as <-.
  rewrite Hd, length_app, Hlen. reflexivity.
Qed.

(** X9.  In a simulated sweep [auto_sensitivity] is invoked in exactly
    the steps whose wavelength lies strictly between 640 and 660, once in
    each: the steps in which it is invoked are, in order, the wavelengths
    of the window among those the sweep has moved to, and these are all
    the wavelengths of the range when the sweep completes. *)
Theorem auto_sensitivity_na_janela :
  forall (hw : hardware) (math : pymath) (start end_ step : Z) (tau : Q)
         (s : Experimento.self) (h : history) (l : list Z),
    py_range start (end_ + 1) step = Ok l ->
    let run := Experimento.executar_varredura true hw math start end_ step tau s h in
    let feitos := firstn (count is_call_mover_para (events_of run)) l in
    ajustes_em None (events_of run)
    = map (fun wl => Some (inject_Z wl)) (filter na_janela_de_saturacao feitos) /\
    count is_call_auto_sensitivity (events_of run)
    = List.length (filter na_janela_de_saturacao feitos) /\
    (is_ok (outcome_of run) = true -> feitos = l).
Proof.
  intros hw math start end_ step tau s h l Hr run feitos.
  destruct (varredura_simulada hw math start end_ step tau s h Hr)
    as [_ [_ [_ [Haj Hok]]]].
  fold run in Haj, Hok. fold feitos in Haj, Hok.
  split; [exact Haj |]. split; [| exact Hok].
  rewrite <- (ajustes_em_count (events_of run) None), Haj, length_map. reflexivity.
Qed.

(** Witness for X8: the simulated sweep of the script. *)
Lemma varredura_simulada_completa_sem_estouro_witness :
  let run := Experimento.executar_varredura true Bancada.ideal Bancada.math_aprox
               400 800 5 (3 # 10) Experimento.__init__ [] in
  outcome_of run = Ok tt /\
  List.length (Experimento.dados (state_of run)) = 81%nat.
Proof.
  cbv zeta.
  destruct (@varredura_simulada_completa_sem_estouro Bancada.ideal Bancada.math_aprox
              400 800 5 (3 # 10) Experimento.__init__ []
              (map (fun i => (400 + Z.of_nat i * 5)%Z) (seq 0 81)) eq_refl)
    as [_ [_ [_ Hlim]]].
  destruct Hlim as [Hok Hlen].
  - apply Z.leb_le. vm_compute. reflexivity.
  - apply Z.leb_le. vm_compute. reflexivity.
  - split; [exact Hok | rewrite Hlen; reflexivity].
Defined.

(** Witness for X9: from 400 to 800 in steps of 5 the scale is adjusted in
    three steps, at 645, 650 and 655. *)
Lemma auto_sensitivity_na_janela_witness :
  ajustes_em None
    (events_of (Experimento.executar_varredura true Bancada.ideal Bancada.math_aprox
                  400 800 5 (3 # 10) Experimento.__init__ []))
  = [Some 645%Q; Some 650%Q; Some 655%Q].
Proof.
  destruct (@auto_sensitivity_na_janela Bancada.ideal Bancada.math_aprox
             400 800 5 (3 # 10) Experimento.__init__ []
             (map (fun i => (400 + Z.of_nat i * 5)%Z) (seq 0 81)) eq_refl)
    as [Haj [_ Hall]].
  rewrite Haj, Hall; [reflexivity |].
  vm_compute. reflexivity.
Defined.

(** A simulated sweep that starts at [10^160] raises in its first read. *)
Example varredura_simulada_estoura :
  let run := Experimento.executar_varredura true Bancada.ideal Bancada.math_aprox
               (10 ^ 160) (10 ^ 160 + 1) 1 (3 # 10) Experimento.__init__ [] in
  outcome_of run = Raise OverflowError /\
  Experimento.dados (state_of run) = [] /\
  count is_call_auto_sensitivity (events_of run) = 0%nat /\
  count is_call_lockin_fechar (events_of run) = 1%nat.
Proof. vm_compute. repeat split. Qed.
